(** * nova-powervm: the VIF plug / unplug tasks

    A shallow embedding of [nova_powervm/virt/powervm/tasks/network.py]
    (the taskflow tasks [UnplugVifs], [PlugVifs] and [PlugMgmtVif]) and the
    properties of the reconciliation logic they implement.

    The tasks talk to collaborators whose code lives elsewhere (the
    hypervisor client behind [vm.get_cnas], [vm.crt_vif], [cna_w.delete],
    the LPAR wrapper's [can_modify_io], nova's [wait_for_instance_event],
    the configuration).  They are gathered in an environment record [Env];
    every call to one of them is recorded in a trace, and what a call
    answers may depend on the whole history of earlier calls. *)

From Stdlib Require Import List String Ascii ZArith Bool Arith Lia FinFun.
Import ListNotations.
Local Open Scope string_scope.
Local Open Scope list_scope.

(** ** Data model *)

(** A nova VIF: the dict entries the tasks read.  ['address'] and ['id'] are
    read with [vif[...]], ['active'] with [vif.get('active', True)], so only
    the last one may be absent. *)
Record VIF := mkVIF {
  address : string;
  id : string;
  active : option bool
}.

(** A client network adapter wrapper ([cna_w]) of pypowervm. *)
Record CNA := mkCNA {
  mac : string;
  vswitch_uri : string
}.

(** The wrapper of the management virtual switch ([vswitch_w]). *)
Record VSwitch := mkVSwitch {
  href : string
}.

(** The nova instance: the two attributes the tasks read. *)
Record Instance := mkInstance {
  name : string;
  uuid : string
}.

(** Exceptions.  [Timeout] is [eventlet.timeout.Timeout], which derives from
    [BaseException] and so escapes an [except Exception] clause. *)
Inductive Exn :=
| VirtualInterfaceUnplugException (message : string)
| VirtualInterfaceCreateException (message : string)
| Timeout
| OtherException (descr : string)
| OtherBaseException (descr : string).

(** [VirtualInterfaceUnplugException.msg_fmt] (line 39). *)
Definition msg_fmt : string := "Virtual interface unplug failed".

(** [msg_fmt] of nova's [exception.VirtualInterfaceCreateException]. *)
Definition create_msg_fmt : string := "Virtual Interface creation failed".

(** [except Exception] catches exactly the subclasses of [Exception]. *)
Definition is_Exception (e : Exn) : bool :=
  match e with
  | Timeout | OtherBaseException _ => false
  | _ => true
  end.

(** [except eventlet.timeout.Timeout]. *)
Definition is_Timeout (e : Exn) : bool :=
  match e with
  | Timeout => true
  | _ => false
  end.

Definition exn_str (e : Exn) : string :=
  match e with
  | VirtualInterfaceUnplugException m => m
  | VirtualInterfaceCreateException m => m
  | Timeout => "Timeout"
  | OtherException d => d
  | OtherBaseException d => d
  end.

Inductive Level := DEBUG | INFO | WARN | ERROR.

(** What the external notifier does with one registered event: it arrives
    completed, it arrives with a failure status, or it does not arrive before
    the deadline. *)
Inductive EventStatus := Completed | Failed | NeverArrives.

(** The name of an instance event: the pair (event type, tag). *)
Definition EventName : Type := (string * string)%type.

(** Observable actions, in program order: log records and calls to
    collaborators. *)
Inductive Event :=
| LOG (lvl : Level) (fmt : string) (args : list string)
| can_modify_io_call
| get_cnas_call
| delete_call (cna_w : CNA)
| crt_vif_call (vif : VIF)
| wait_for_instance_event_call (events : list EventName) (deadline : Z)
| get_secure_rmc_vswitch_call
| crt_secure_rmc_vif_call.

Definition Trace := list Event.

(** The collaborators.  Each answer is a function of the history of actions
    performed so far. *)
Record Env := mkEnv {
  is_neutron : bool;                        (* utils.is_neutron() *)
  vif_plugging_is_fatal : bool;             (* CONF.vif_plugging_is_fatal *)
  vif_plugging_timeout : Z;                 (* CONF.vif_plugging_timeout *)
  get_cnas : Trace -> list CNA;             (* vm.get_cnas *)
  can_modify_io : Trace -> bool * string;   (* lpar_wrap.can_modify_io *)
  delete : Trace -> CNA -> option Exn;      (* cna_w.delete; None = returns *)
  crt_vif : Trace -> VIF -> option Exn;     (* vm.crt_vif; None = returns *)
  event_status : Trace -> EventName -> EventStatus;
  get_secure_rmc_vswitch : Trace -> option VSwitch;
  crt_secure_rmc_vif : Trace -> Exn + CNA   (* vm.crt_secure_rmc_vif *)
}.

(** ** The effect monad: history in, emitted actions and outcome out *)

Inductive Outcome (A : Type) :=
| Return (a : A)
| Raise (e : Exn).
Arguments Return {A} a.
Arguments Raise {A} e.

Definition M (A : Type) : Type := Trace -> Trace * Outcome A.

Definition ret {A} (a : A) : M A := fun _ => ([], Return a).

Definition raise {A} (e : Exn) : M A := fun _ => ([], Raise e).

Definition bind {A B} (m : M A) (f : A -> M B) : M B :=
  fun h =>
    match m h with
    | (t1, Return a) => let (t2, o) := f a (h ++ t1) in (t1 ++ t2, o)
    | (t1, Raise e) => (t1, Raise e)
    end.

Notation "x <- m ;; k" := (bind m (fun x => k))
  (at level 61, m at next level, right associativity).
Notation "m ;; k" := (bind m (fun _ => k))
  (at level 61, right associativity).

(** [try: m except <handles>: handler]. *)
Definition try_except {A} (m : M A) (handles : Exn -> bool)
    (handler : Exn -> M A) : M A :=
  fun h =>
    match m h with
    | (t1, Return a) => (t1, Return a)
    | (t1, Raise e) =>
        if handles e
        then let (t2, o) := handler e (h ++ t1) in (t1 ++ t2, o)
        else (t1, Raise e)
    end.

Definition emit (ev : Event) : M unit := fun _ => ([ev], Return tt).

(** The actions performed by [m] after history [h], and its outcome. *)
Definition trace_of {A} (m : M A) (h : Trace) : Trace := fst (m h).
Definition outcome_of {A} (m : M A) (h : Trace) : Outcome A := snd (m h).

(** Python truthiness of an integer option. *)
Definition truthy (z : Z) : bool := negb (Z.eqb z 0).

(** [vif.get('active', default)]. *)
Definition get_active (vif : VIF) (default : bool) : bool :=
  match active vif with
  | Some b => b
  | None => default
  end.

(** ** Calls to the collaborators *)

Section Calls.
Variable env : Env.

Definition vm_get_cnas : M (list CNA) :=
  fun h => ([get_cnas_call], Return (get_cnas env h)).

Definition lpar_can_modify_io : M (bool * string) :=
  fun h => ([can_modify_io_call], Return (can_modify_io env h)).

Definition cna_delete (cna_w : CNA) : M unit :=
  fun h =>
    ([delete_call cna_w],
     match delete env h cna_w with
     | None => Return tt
     | Some e => Raise e
     end).

Definition vm_crt_vif (vif : VIF) : M unit :=
  fun h =>
    ([crt_vif_call vif],
     match crt_vif env h vif with
     | None => Return tt
     | Some e => Raise e
     end).

Definition vm_get_secure_rmc_vswitch : M (option VSwitch) :=
  fun h => ([get_secure_rmc_vswitch_call],
            Return (get_secure_rmc_vswitch env h)).

Definition vm_crt_secure_rmc_vif : M CNA :=
  fun h =>
    ([crt_secure_rmc_vif_call],
     match crt_secure_rmc_vif env h with
     | inr cna_w => Return cna_w
     | inl e => Raise e
     end).

(** Contract of nova's [virt_api.wait_for_instance_event] context manager:
    entering registers the events with the deadline; the body runs; leaving
    the body normally blocks until every registered event has arrived or
    the deadline elapses ([Timeout]), calling [error_callback] for each
    event that arrives with a failure.  An exception of the body leaves the
    scope without waiting. *)
Fixpoint wait_events (error_callback : EventName -> M unit)
    (events : list EventName) : M unit :=
  match events with
  | [] => ret tt
  | event_name :: rest =>
      fun h =>
        match event_status env h event_name with
        | Completed => wait_events error_callback rest h
        | Failed =>
            (error_callback event_name ;;
             wait_events error_callback rest) h
        | NeverArrives => raise Timeout h
        end
  end.

Definition wait_for_instance_event (events : list EventName) (deadline : Z)
    (error_callback : EventName -> M unit) (body : M unit) : M unit :=
  emit (wait_for_instance_event_call events deadline) ;;
  body ;;
  wait_events error_callback events.
End Calls.

(** ** [UnplugVifs] (lines 42-109) *)

Module UnplugVifs.
Section Task.
Variable norm_mac : string -> string.   (* vm.norm_mac *)
Variable env : Env.
Variable instance : Instance.           (* self.instance *)
Variable network_info : list VIF.       (* self.network_info *)

(** The [except Exception as e] handler, lines 91-98. *)
Definition delete_failed (vif : VIF) (e : Exn) : M unit :=
  emit (LOG ERROR
          "Unable to unplug VIF with mac %(mac)s for instance %(inst)s."
          [address vif; name instance]) ;;
  emit (LOG ERROR "%s" [exn_str e]) ;;
  raise (VirtualInterfaceUnplugException msg_fmt).

Definition deleting_info (vif : VIF) : Event :=
  LOG INFO "Deleting VIF with mac %(mac)s for instance %(inst)s."
      [address vif; name instance].

(** The inner [for cna_w in cna_w_list] of lines 82-102.  The result says
    whether the loop was left by [break]. *)
Fixpoint delete_first_match (vif : VIF) (cna_w_list : list CNA) : M bool :=
  match cna_w_list with
  | [] => ret false
  | cna_w :: rest =>
      if norm_mac (mac cna_w) =? address vif then
        emit (deleting_info vif) ;;
        try_except (cna_delete env cna_w) is_Exception
                   (delete_failed vif) ;;
        ret true
      else delete_first_match vif rest
  end.

(** The [else] branch of the inner loop, lines 103-108. *)
Definition not_found_warning (vif : VIF) : Event :=
  LOG WARN
    "Unable to unplug VIF with mac %(mac)s for instance %(inst)s.  The VIF was not found on the instance."
    [address vif; name instance].

(** The outer [for vif in self.network_info], lines 81-108. *)
Fixpoint unplug_each (vifs : list VIF) (cna_w_list : list CNA) : M unit :=
  match vifs with
  | [] => ret tt
  | vif :: rest =>
      broke <- delete_first_match vif cna_w_list ;;
      (if (broke : bool) then ret tt else emit (not_found_warning vif)) ;;
      unplug_each rest cna_w_list
  end.

Definition not_modifiable_error (reason : string) : Event :=
  LOG ERROR
    "Unable to remove VIFs from instance %(inst)s because the system is not in a correct state.  The reason reported by the system is: %(reason)s"
    [name instance; reason].

Definition unplugging_info : Event :=
  LOG INFO "Unplugging the Network Interfaces to instance %s"
      [name instance].

Definition execute : M (list CNA) :=
  emit unplugging_info ;;
  state <- lpar_can_modify_io env ;;
  let (modifiable, reason) := (state : bool * string) in
  if negb modifiable then
    emit (not_modifiable_error reason) ;;
    raise (VirtualInterfaceUnplugException msg_fmt)
  else
    cna_w_list <- vm_get_cnas env ;;
    unplug_each network_info cna_w_list ;;
    ret cna_w_list.
End Task.
End UnplugVifs.

(** ** [PlugVifs] (lines 112-214) *)

Module PlugVifs.
Section Task.
Variable norm_mac : string -> string.   (* vm.norm_mac *)
Variable env : Env.
Variable instance : Instance.           (* self.instance *)
Variable network_info : list VIF.       (* self.network_info *)

(** The inner [for cna_w in cna_w_list] of lines 146-148: [true] when it
    is left by [break]. *)
Fixpoint has_cna (vif : VIF) (cna_w_list : list CNA) : bool :=
  match cna_w_list with
  | [] => false
  | cna_w :: rest =>
      if norm_mac (mac cna_w) =? address vif then true
      else has_cna vif rest
  end.

(** Lines 143-150: the VIFs that have not yet been created ([crt_vifs]). *)
Fixpoint trim_vifs (vifs : list VIF) (cna_w_list : list CNA) : list VIF :=
  match vifs with
  | [] => []
  | vif :: rest =>
      if has_cna vif cna_w_list then trim_vifs rest cna_w_list
      else vif :: trim_vifs rest cna_w_list
  end.

(** [_get_vif_events], lines 197-214. *)
Definition _get_vif_events : list EventName :=
  if is_neutron env && vif_plugging_is_fatal env
     && truthy (vif_plugging_timeout env)
  then map (fun vif => ("network-vif-plugged", id vif))
           (filter (fun vif => negb (get_active vif true)) network_info)
  else [].

(** [_vif_callback_failed], lines 190-195. *)
Definition _vif_callback_failed (event_name : EventName) : M unit :=
  emit (LOG ERROR
          "VIF Plug failure for callback on event %(event)s for instance %(uuid)s"
          [(fst event_name ++ "-" ++ snd event_name)%string; uuid instance]) ;;
  if vif_plugging_is_fatal env
  then raise (VirtualInterfaceCreateException create_msg_fmt)
  else ret tt.

Definition creating_info (vif : VIF) : Event :=
  LOG INFO "Creating VIF with mac %(mac)s for instance %(sys)s"
      [address vif; name instance].

(** The body of the [with], lines 173-180. *)
Fixpoint create_each (crt_vifs : list VIF) : M unit :=
  match crt_vifs with
  | [] => ret tt
  | vif :: rest =>
      emit (creating_info vif) ;;
      vm_crt_vif env vif ;;
      create_each rest
  end.

Definition not_modifiable_error (reason : string) : Event :=
  LOG ERROR
    "Unable to create VIF(s) for instance %(sys)s.  The VM was in a state where VIF plugging is not acceptable.  The reason from the system is: %(reason)s"
    [name instance; reason].

Definition timeout_error : Event :=
  LOG ERROR "Error waiting for VIF to be created for instance %(sys)s"
      [name instance].

Definition plugging_info : Event :=
  LOG INFO "Plugging the Network Interfaces to instance %s"
      [name instance].

Definition execute : M (list CNA) :=
  emit plugging_info ;;
  cna_w_list <- vm_get_cnas env ;;
  let crt_vifs := trim_vifs network_info cna_w_list in
  if (List.length crt_vifs =? 0)%nat then ret []
  else
    state <- lpar_can_modify_io env ;;
    let (modifiable, reason) := (state : bool * string) in
    if negb modifiable then
      emit (not_modifiable_error reason) ;;
      raise (VirtualInterfaceCreateException create_msg_fmt)
    else
      try_except
        (wait_for_instance_event env _get_vif_events
           (vif_plugging_timeout env) _vif_callback_failed
           (create_each crt_vifs))
        is_Timeout
        (fun _ =>
           emit timeout_error ;;
           raise (VirtualInterfaceCreateException create_msg_fmt)) ;;
      ret cna_w_list.
End Task.
End PlugVifs.

(** ** [PlugMgmtVif] (lines 217-261) *)

Module PlugMgmtVif.
Section Task.
Variable env : Env.
Variable instance : Instance.           (* self.instance *)

(** The [for cna_w in vm_cnas] of lines 253-257: [true] when an adapter on
    the management switch is found (the loop returns). *)
Fixpoint on_vswitch (vswitch_w : VSwitch) (vm_cnas : list CNA) : bool :=
  match vm_cnas with
  | [] => false
  | cna_w :: rest =>
      if vswitch_uri cna_w =? href vswitch_w then true
      else on_vswitch vswitch_w rest
  end.

Definition plugging_info : Event :=
  LOG INFO "Plugging the Management Network Interface to instance %s"
      [name instance].

Definition no_vswitch_debug : Event :=
  LOG DEBUG
    "No management VIF created for instance %s due to lack of Management Virtual Switch"
    [name instance].

Definition already_created_debug : Event :=
  LOG DEBUG "Management VIF already created for instance %s"
      [name instance].

Definition execute (vm_cnas : list CNA) : M (option CNA) :=
  emit plugging_info ;;
  vswitch_w <- vm_get_secure_rmc_vswitch env ;;
  match vswitch_w with
  | None =>
      emit no_vswitch_debug ;;
      ret None
  | Some vswitch_w =>
      if on_vswitch vswitch_w vm_cnas then
        emit already_created_debug ;;
        ret None
      else
        cna_w <- vm_crt_secure_rmc_vif env ;;
        ret (Some cna_w)
  end.
End Task.
End PlugMgmtVif.

(** ** Observations on traces *)

(** The VIFs handed to [vm.crt_vif], in call order. *)
Definition creations (t : Trace) : list VIF :=
  flat_map (fun ev => match ev with crt_vif_call vif => [vif] | _ => [] end) t.

(** The adapters on which [delete] was called, in call order. *)
Definition deletions (t : Trace) : list CNA :=
  flat_map (fun ev => match ev with delete_call c => [c] | _ => [] end) t.

(** The wait entries handed to [wait_for_instance_event]. *)
Definition registered (t : Trace) : list EventName :=
  flat_map (fun ev => match ev with
                      | wait_for_instance_event_call evs _ => evs
                      | _ => []
                      end) t.

(** The number of scoped waits that were entered. *)
Definition waits (t : Trace) : nat :=
  List.length (filter (fun ev => match ev with
                                 | wait_for_instance_event_call _ _ => true
                                 | _ => false
                                 end) t).

(** The number of [can_modify_io] queries. *)
Definition state_checks (t : Trace) : nat :=
  List.length (filter (fun ev => match ev with
                                 | can_modify_io_call => true
                                 | _ => false
                                 end) t).

(** The number of [vm.get_cnas] calls. *)
Definition fetches (t : Trace) : nat :=
  List.length (filter (fun ev => match ev with
                                 | get_cnas_call => true
                                 | _ => false
                                 end) t).

(** The number of [vm.crt_secure_rmc_vif] calls. *)
Definition mgmt_creations (t : Trace) : nat :=
  List.length (filter (fun ev => match ev with
                                 | crt_secure_rmc_vif_call => true
                                 | _ => false
                                 end) t).

Definition is_LOG (ev : Event) : bool :=
  match ev with
  | LOG _ _ _ => true
  | _ => false
  end.

(** A trace of log records only: no collaborator was called. *)
Definition quiet (t : Trace) : Prop := Forall (fun ev => is_LOG ev = true) t.

(** The actions of a run of [PlugVifs.create_each] in which every creation
    succeeds. *)
Definition create_trace (instance : Instance) (crt_vifs : list VIF) : Trace :=
  flat_map (fun vif => [PlugVifs.creating_info instance vif; crt_vif_call vif])
           crt_vifs.

(** The actions with which every run of [PlugVifs.execute] starts when
    something is to be created on a modifiable machine. *)
Definition plug_prologue (env : Env) (instance : Instance)
    (network_info : list VIF) : Trace :=
  [PlugVifs.plugging_info instance; get_cnas_call; can_modify_io_call;
   wait_for_instance_event_call (PlugVifs._get_vif_events env network_info)
                                (vif_plugging_timeout env)].

(** The gate of [_get_vif_events] (line 208-209). *)
Definition events_required (env : Env) : bool :=
  is_neutron env && vif_plugging_is_fatal env
  && truthy (vif_plugging_timeout env).

(** The wait entry of a VIF (line 210). *)
Definition vif_plugged (vif : VIF) : EventName :=
  ("network-vif-plugged", id vif).

Definition EventName_eq_dec (x y : EventName) : {x = y} + {x <> y}.
Proof. decide equality; apply string_dec. Defined.

(** The specification's words for a match: the two normalized hardware
    addresses are equal.  The source's test (lines 84 and 147) normalizes the
    adapter's address only. *)
Definition same_norm_mac (norm_mac : string -> string)
    (cna_w : CNA) (vif : VIF) : bool :=
  norm_mac (mac cna_w) =? norm_mac (address vif).

(** [toCreate] in the specification's words: the desired interfaces without
    an adapter of equal normalized hardware address. *)
Definition toCreate_spec (norm_mac : string -> string)
    (vifs : list VIF) (cna_w_list : list CNA) : list VIF :=
  filter (fun vif => negb (existsb (fun c => same_norm_mac norm_mac c vif)
                                   cna_w_list)) vifs.

(** ** Concrete collaborators for the examples *)

Definition lower_ascii (c : ascii) : ascii :=
  let n := nat_of_ascii c in
  if ((65 <=? n) && (n <=? 90))%nat then ascii_of_nat (n + 32) else c.

(** Modelled from the spec: [vm.norm_mac] is defined in vm.py, which is not
    part of the sources at hand.  The specification only asks for a pure
    [normalize(address) -> canonical-form] that removes case and format
    variance, and its scenario lets "AA:BB" match "aa:bb".  The examples use
    case folding; every general theorem holds for an arbitrary [norm_mac]. *)
Fixpoint norm_mac_lower (s : string) : string :=
  match s with
  | EmptyString => EmptyString
  | String c rest => String (lower_ascii c) (norm_mac_lower rest)
  end.

(** A hypervisor whose answers do not depend on the history, where every
    adapter call succeeds. *)
Definition static_env (neutron fatal : bool) (timeout : Z)
    (cnas : list CNA) (state : bool * string)
    (status : EventName -> EventStatus)
    (vswitch : option VSwitch) (mgmt : Exn + CNA) : Env :=
  mkEnv neutron fatal timeout
        (fun _ => cnas) (fun _ => state)
        (fun _ _ => None) (fun _ _ => None)
        (fun _ => status)
        (fun _ => vswitch) (fun _ => mgmt).

Definition inst1 : Instance := mkInstance "vm-1" "b3c04455-a435-499d-ac81-371d2a2d334f".

Definition mgmt_switch : VSwitch := mkVSwitch "https://hmc/rest/api/uom/VirtualSwitch/mgmt".

Definition mgmt_cna : CNA := mkCNA "FAD4433ED120" (href mgmt_switch).

(** A host with neutron, the fatal policy and a 300 s timeout, whose VM is
    modifiable and where every event completes. *)
Definition neutron_env (cnas : list CNA) : Env :=
  static_env true true 300 cnas (true, "") (fun _ => Completed)
             (Some mgmt_switch) (inr mgmt_cna).

(** The same host with a VM that cannot be modified. *)
Definition locked_env (cnas : list CNA) (reason : string) : Env :=
  static_env true true 300 cnas (false, reason) (fun _ => Completed)
             (Some mgmt_switch) (inr mgmt_cna).

Definition vif_aabb : VIF := mkVIF "aa:bb" "port-1" (Some false).
Definition vif_ccdd : VIF := mkVIF "cc:dd" "port-2" (Some false).
Definition vif_aabb_again : VIF := mkVIF "aa:bb" "port-3" (Some false).
Definition vif_AABB : VIF := mkVIF "AA:BB" "port-4" (Some false).
Definition vif_no_active : VIF := mkVIF "ee:ff" "port-5" None.
Definition cna_AABB : CNA := mkCNA "AA:BB" "https://hmc/rest/api/uom/VirtualSwitch/eth0".


(** A neutron host on which no event ever arrives. *)
Definition silent_env (cnas : list CNA) : Env :=
  static_env true true 300 cnas (true, "") (fun _ => NeverArrives)
             (Some mgmt_switch) (inr mgmt_cna).

(** A host without a management virtual switch. *)
Definition no_mgmt_env (cnas : list CNA) : Env :=
  static_env true true 300 cnas (true, "") (fun _ => Completed)
             None (inr mgmt_cna).

(** ** Further observations and flows *)

(** The adapter on which the inner loop of lines 82-102 (and of lines
    146-148) stops: the first one of the list whose normalized address is
    the VIF's address. *)
Definition first_match (norm_mac : string -> string) (vif : VIF)
    (cna_w_list : list CNA) : option CNA :=
  find (fun c => norm_mac (mac c) =? address vif) cna_w_list.

(** The actions of [UnplugVifs.unplug_each] on a list where every deletion
    succeeds: per VIF, the deletion of its first match or the warning. *)
Definition unplug_trace (norm_mac : string -> string) (instance : Instance)
    (vifs : list VIF) (cna_w_list : list CNA) : Trace :=
  flat_map (fun vif =>
              match first_match norm_mac vif cna_w_list with
              | Some c => [UnplugVifs.deleting_info instance vif;
                           delete_call c]
              | None => [UnplugVifs.not_found_warning instance vif]
              end) vifs.

(** The log records of the [except Exception] handler, lines 92-97. *)
Definition delete_failed_log (instance : Instance) (vif : VIF) (e : Exn)
    : Trace :=
  [LOG ERROR "Unable to unplug VIF with mac %(mac)s for instance %(inst)s."
       [address vif; name instance];
   LOG ERROR "%s" [exn_str e]].

(** The log record of [_vif_callback_failed], lines 191-193. *)
Definition callback_error (instance : Instance) (event_name : EventName)
    : Event :=
  LOG ERROR
    "VIF Plug failure for callback on event %(event)s for instance %(uuid)s"
    [(fst event_name ++ "-" ++ snd event_name)%string; uuid instance].

(** The number of warnings logged. *)
Definition warnings (t : Trace) : nat :=
  List.length (filter (fun ev => match ev with
                                 | LOG WARN _ _ => true
                                 | _ => false
                                 end) t).

(** The flow taskflow builds from the declarations of the two tasks:
    [PlugVifs] provides 'vm_cnas' (line 133), [PlugMgmtVif] requires it
    (line 237) and receives it as the argument of [execute]. *)
Definition plug_flow (norm_mac : string -> string) (env : Env)
    (instance : Instance) (network_info : list VIF) : M (option CNA) :=
  vm_cnas <- PlugVifs.execute norm_mac env instance network_info ;;
  PlugMgmtVif.execute env instance vm_cnas.

(** A modifiable neutron host whose [delete] and [vm.crt_vif] fail as the
    two tables say, whatever happened before. *)
Definition faulty_env (cnas : list CNA) (delete_fails : CNA -> option Exn)
    (crt_fails : VIF -> option Exn) (status : EventName -> EventStatus)
    : Env :=
  mkEnv true true 300
        (fun _ => cnas) (fun _ => (true, ""))
        (fun _ => delete_fails) (fun _ => crt_fails)
        (fun _ => status)
        (fun _ => Some mgmt_switch) (fun _ => inr mgmt_cna).

Definition cna_CCDD : CNA :=
  mkCNA "CC:DD" "https://hmc/rest/api/uom/VirtualSwitch/eth0".

(** [delete] fails on the adapter "CC:DD" only. *)
Definition ccdd_delete_fails (c : CNA) : option Exn :=
  if mac c =? "CC:DD" then Some (OtherException "HTTP 500") else None.

(** [vm.crt_vif] fails on the VIF "cc:dd" only. *)
Definition ccdd_crt_fails (vif : VIF) : option Exn :=
  if address vif =? "cc:dd" then Some (OtherException "HTTP 500") else None.

(** The event of port-2 arrives with a failure, every other one completes. *)
Definition port2_fails (ev : EventName) : EventStatus :=
  if (fst ev =? "network-vif-plugged") && (snd ev =? "port-2")
  then Failed else Completed.

(** ** A hypervisor whose adapter list follows the calls *)

Definition CNA_eqb (a b : CNA) : bool :=
  (mac a =? mac b) && (vswitch_uri a =? vswitch_uri b).

(** The adapter the hypervisor shows for a created VIF, on the switch
    [uri]. *)
Definition adapter_of (uri : string) (vif : VIF) : CNA :=
  mkCNA (address vif) uri.

(** What [vm.get_cnas] answers after the actions [t] on a machine that
    started with the adapters [initial]: the adapters on which [delete] was
    called are gone, one adapter per created VIF has been added. *)
Definition live_cnas (uri : string) (initial : list CNA) (t : Trace)
    : list CNA :=
  filter (fun c => negb (existsb (CNA_eqb c) (deletions t))) initial
  ++ map (adapter_of uri) (creations t).

(** A modifiable neutron host with that adapter list, where every call
    succeeds and every event completes. *)
Definition live_env (fatal : bool) (uri : string) (initial : list CNA) : Env :=
  mkEnv true fatal 300
        (live_cnas uri initial) (fun _ => (true, ""))
        (fun _ _ => None) (fun _ _ => None)
        (fun _ _ => Completed)
        (fun _ => Some mgmt_switch) (fun _ => inr mgmt_cna).

Definition eth0 : string := "https://hmc/rest/api/uom/VirtualSwitch/eth0".

(** * Properties *)

(** ** Traces *)

Lemma creations_app (t1 t2 : Trace) :
  creations (t1 ++ t2) = creations t1 ++ creations t2.
Proof. apply flat_map_app. Qed.

Lemma deletions_app (t1 t2 : Trace) :
  deletions (t1 ++ t2) = deletions t1 ++ deletions t2.
Proof. apply flat_map_app. Qed.

Lemma registered_app (t1 t2 : Trace) :
  registered (t1 ++ t2) = registered t1 ++ registered t2.
Proof. apply flat_map_app. Qed.

Lemma quiet_app (t1 t2 : Trace) : quiet t1 -> quiet t2 -> quiet (t1 ++ t2).
Proof. unfold quiet. intros H1 H2. apply Forall_app. split; assumption. Qed.



Lemma quiet_registered (t : Trace) : quiet t -> registered t = [].
Proof.
  induction 1 as [|ev t Hev _ IH]; [reflexivity|].
  destruct ev; try discriminate Hev. exact IH.
Qed.

Lemma creations_create_trace (instance : Instance) (vifs : list VIF) :
  creations (create_trace instance vifs) = vifs.
Proof.
  induction vifs as [|vif rest IH]; [reflexivity|].
  change (create_trace instance (vif :: rest))
    with ([PlugVifs.creating_info instance vif; crt_vif_call vif]
          ++ create_trace instance rest).
  rewrite creations_app, IH. reflexivity.
Qed.


Lemma registered_create_trace (instance : Instance) (vifs : list VIF) :
  registered (create_trace instance vifs) = [].
Proof. induction vifs as [|vif rest IH]; [reflexivity | exact IH]. Qed.

(** ** The monad *)

Lemma bind_run {A B} (m : M A) (f : A -> M B) (h : Trace) :
  bind m f h
  = match snd (m h) with
    | Return a => (fst (m h) ++ fst (f a (h ++ fst (m h))),
                   snd (f a (h ++ fst (m h))))
    | Raise e => (fst (m h), Raise e)
    end.
Proof.
  unfold bind. destruct (m h) as [t1 [a|e]]; simpl; [|reflexivity].
  destruct (f a (h ++ t1)); reflexivity.
Qed.


Lemma bind_emit {B} (ev : Event) (k : M B) (h : Trace) :
  (emit ev ;; k) h = (ev :: fst (k (h ++ [ev])), snd (k (h ++ [ev]))).
Proof. rewrite bind_run. reflexivity. Qed.

Lemma quiet_bind {A B} (m : M A) (f : A -> M B) (h : Trace) :
  quiet (fst (m h)) ->
  (forall a h', quiet (fst (f a h'))) ->
  quiet (fst (bind m f h)).
Proof.
  intros Hm Hf. rewrite bind_run.
  destruct (snd (m h)); simpl; [|exact Hm].
  apply quiet_app; [exact Hm | apply Hf].
Qed.

(** ** The matching scan and the trimmed list *)

Section Matching.
Variable norm_mac : string -> string.

Lemma has_cna_existsb (vif : VIF) (cnas : list CNA) :
  PlugVifs.has_cna norm_mac vif cnas
  = existsb (fun c => norm_mac (mac c) =? address vif) cnas.
Proof.
  induction cnas as [|c rest IH]; [reflexivity|].
  simpl. destruct (norm_mac (mac c) =? address vif); [reflexivity | exact IH].
Qed.

Lemma has_cna_false (vif : VIF) (cnas : list CNA) :
  PlugVifs.has_cna norm_mac vif cnas = false <->
  forall c, In c cnas -> norm_mac (mac c) <> address vif.
Proof.
  rewrite has_cna_existsb. split.
  - intros H c Hc Heq.
    assert (Ht : existsb (fun c => norm_mac (mac c) =? address vif) cnas
                 = true).
    { apply existsb_exists. exists c. split; [exact Hc|].
      apply String.eqb_eq. exact Heq. }
    congruence.
  - intros H.
    destruct (existsb _ cnas) eqn:E; [|reflexivity].
    apply existsb_exists in E. destruct E as [c [Hc Heq]].
    apply String.eqb_eq in Heq. exfalso. exact (H c Hc Heq).
Qed.

Lemma trim_vifs_filter (vifs : list VIF) (cnas : list CNA) :
  PlugVifs.trim_vifs norm_mac vifs cnas
  = filter (fun vif => negb (PlugVifs.has_cna norm_mac vif cnas)) vifs.
Proof.
  induction vifs as [|vif rest IH]; [reflexivity|].
  simpl. destruct (PlugVifs.has_cna norm_mac vif cnas); simpl;
    rewrite IH; reflexivity.
Qed.

Lemma trim_vifs_app (vifs1 vifs2 : list VIF) (cnas : list CNA) :
  PlugVifs.trim_vifs norm_mac (vifs1 ++ vifs2) cnas
  = PlugVifs.trim_vifs norm_mac vifs1 cnas
    ++ PlugVifs.trim_vifs norm_mac vifs2 cnas.
Proof. rewrite !trim_vifs_filter. apply filter_app. Qed.

(** When the desired address is already in normalized form, the source's
    test and the equality of normalized addresses agree. *)
Lemma same_norm_mac_canonical (c : CNA) (vif : VIF) :
  norm_mac (address vif) = address vif ->
  same_norm_mac norm_mac c vif = (norm_mac (mac c) =? address vif).
Proof. intros H. unfold same_norm_mac. rewrite H. reflexivity. Qed.

(** For an idempotent normalization, a match of the source's test is a
    match of normalized addresses. *)
Lemma match_same_norm_mac (c : CNA) (vif : VIF) :
  (forall s, norm_mac (norm_mac s) = norm_mac s) ->
  norm_mac (mac c) = address vif ->
  same_norm_mac norm_mac c vif = true.
Proof.
  intros Hidem H. unfold same_norm_mac. apply String.eqb_eq.
  rewrite <- H. symmetry. apply Hidem.
Qed.

Lemma trim_vifs_canonical (vifs : list VIF) (cnas : list CNA) :
  (forall vif, In vif vifs -> norm_mac (address vif) = address vif) ->
  PlugVifs.trim_vifs norm_mac vifs cnas = toCreate_spec norm_mac vifs cnas.
Proof.
  intros Hcan. rewrite trim_vifs_filter. unfold toCreate_spec.
  apply filter_ext_in. intros vif Hvif.
  rewrite has_cna_existsb. f_equal.
  induction cnas as [|c rest IH]; [reflexivity|].
  simpl. rewrite same_norm_mac_canonical by (apply Hcan; exact Hvif).
  rewrite IH. reflexivity.
Qed.
End Matching.

(** ** Runs of the parts of [PlugVifs.execute] *)

Section PlugRuns.
Variable env : Env.
Variable instance : Instance.

(** The creation loop calls nothing but [vm.crt_vif], on an initial segment
    of the list it is given. *)
Lemma create_each_shape (vifs : list VIF) (h : Trace) :
  exists n,
    fst (PlugVifs.create_each env instance vifs h)
    = create_trace instance (firstn n vifs).
Proof.
  revert h. induction vifs as [|vif rest IH]; intros h.
  - exists 0%nat. reflexivity.
  - simpl. rewrite bind_emit, bind_run. unfold vm_crt_vif at 1 2 3. simpl.
    destruct (crt_vif env _ vif) as [e|]; simpl.
    + exists 1%nat. reflexivity.
    + destruct (IH ((h ++ [PlugVifs.creating_info instance vif])
                    ++ [crt_vif_call vif])) as [n Hn].
      rewrite Hn. exists (S n). reflexivity.
Qed.

(** When no creation fails, the loop creates every VIF of its list, in
    order, and returns. *)
Lemma create_each_ok (vifs : list VIF) (h : Trace) :
  (forall t vif, crt_vif env t vif = None) ->
  PlugVifs.create_each env instance vifs h
  = (create_trace instance vifs, Return tt).
Proof.
  intros Hok. revert h. induction vifs as [|vif rest IH]; intros h.
  - reflexivity.
  - simpl. rewrite bind_emit, bind_run. unfold vm_crt_vif at 1 2 3. simpl.
    rewrite Hok. simpl. rewrite IH. reflexivity.
Qed.

Lemma _vif_callback_failed_quiet (ev : EventName) (h : Trace) :
  quiet (fst (PlugVifs._vif_callback_failed env instance ev h)).
Proof.
  unfold PlugVifs._vif_callback_failed. rewrite bind_emit.
  destruct (vif_plugging_is_fatal env); repeat constructor.
Qed.

(** Waiting calls no collaborator: it only logs failed events. *)
Lemma wait_events_quiet (events : list EventName) (h : Trace) :
  quiet (fst (wait_events env (PlugVifs._vif_callback_failed env instance)
                          events h)).
Proof.
  revert h. induction events as [|ev rest IH]; intros h.
  - constructor.
  - simpl. destruct (event_status env h ev).
    + apply IH.
    + apply quiet_bind.
      * apply _vif_callback_failed_quiet.
      * intros _ h'. apply IH.
    + constructor.
Qed.

Lemma wait_events_completed (events : list EventName) (h : Trace) :
  (forall t ev, In ev events -> event_status env t ev = Completed) ->
  wait_events env (PlugVifs._vif_callback_failed env instance) events h
  = ([], Return tt).
Proof.
  revert h. induction events as [|ev rest IH]; intros h Hc.
  - reflexivity.
  - simpl. rewrite Hc by (left; reflexivity).
    apply IH. intros t ev' Hin. apply Hc. right. exact Hin.
Qed.

End PlugRuns.

(** ** Runs of [PlugVifs.execute] *)

Section PlugExecute.
Variable norm_mac : string -> string.
Variable env : Env.
Variable instance : Instance.
Variable network_info : list VIF.
Variable h : Trace.
Variable cnas : list CNA.
Hypothesis Hcnas :
  get_cnas env (h ++ [PlugVifs.plugging_info instance]) = cnas.

Local Abbreviation crt_vifs :=
  (PlugVifs.trim_vifs norm_mac network_info cnas).
Local Abbreviation events := (PlugVifs._get_vif_events env network_info).
Local Abbreviation prologue := (plug_prologue env instance network_info).

Lemma length_eqb_nil {A} (l : list A) :
  (List.length l =? 0)%nat = true <-> l = [].
Proof.
  destruct l; simpl; split; intros H; try reflexivity; discriminate.
Qed.

Lemma plug_run_empty :
  crt_vifs = [] ->
  PlugVifs.execute norm_mac env instance network_info h
  = ([PlugVifs.plugging_info instance; get_cnas_call], Return []).
Proof.
  intros Hempty. unfold PlugVifs.execute.
  rewrite bind_emit, bind_run. unfold vm_get_cnas at 1 2 3 4. simpl.
  rewrite Hcnas. rewrite Hempty. reflexivity.
Qed.

Lemma plug_run_locked (reason : string) :
  crt_vifs <> [] ->
  can_modify_io env ((h ++ [PlugVifs.plugging_info instance])
                     ++ [get_cnas_call]) = (false, reason) ->
  PlugVifs.execute norm_mac env instance network_info h
  = ([PlugVifs.plugging_info instance; get_cnas_call; can_modify_io_call;
      PlugVifs.not_modifiable_error instance reason],
     Raise (VirtualInterfaceCreateException create_msg_fmt)).
Proof.
  intros Hne Hlocked. unfold PlugVifs.execute.
  rewrite bind_emit, bind_run. unfold vm_get_cnas at 1 2 3 4. simpl.
  rewrite Hcnas.
  destruct (List.length crt_vifs =? 0)%nat eqn:El.
  { apply length_eqb_nil in El. contradiction. }
  rewrite bind_run. unfold lpar_can_modify_io at 1 2 3 4. simpl.
  rewrite Hlocked. reflexivity.
Qed.

(** The shape of every run on a modifiable machine with something to
    create. *)
Lemma plug_run_shape :
  crt_vifs <> [] ->
  fst (can_modify_io env ((h ++ [PlugVifs.plugging_info instance])
                          ++ [get_cnas_call])) = true ->
  exists n tw o,
    PlugVifs.execute norm_mac env instance network_info h
    = (prologue ++ create_trace instance (firstn n crt_vifs) ++ tw, o)
    /\ quiet tw
    /\ (forall v, o = Return v -> v = cnas)
    /\ ((forall t vif, crt_vif env t vif = None) ->
        firstn n crt_vifs = crt_vifs).
Proof.
  intros Hne Hmod. unfold PlugVifs.execute.
  rewrite bind_emit, bind_run. unfold vm_get_cnas at 1 2 3 4. simpl.
  rewrite Hcnas.
  destruct (List.length crt_vifs =? 0)%nat eqn:El.
  { apply length_eqb_nil in El. contradiction. }
  rewrite bind_run. unfold lpar_can_modify_io at 1 2 3 4. simpl.
  destruct (can_modify_io env _) as [modifiable reason].
  simpl in Hmod. subst modifiable. simpl.
  rewrite bind_run. unfold try_except, wait_for_instance_event.
  rewrite bind_emit. rewrite bind_run.
  set (h1 := ((((h ++ [PlugVifs.plugging_info instance]) ++ [get_cnas_call])
               ++ [can_modify_io_call])
              ++ [wait_for_instance_event_call events
                    (vif_plugging_timeout env)])).
  destruct (create_each_shape env instance crt_vifs h1) as [n Hn].
  assert (Hall : (forall t vif, crt_vif env t vif = None) ->
                 firstn n crt_vifs = crt_vifs).
  { intros Hok. rewrite (create_each_ok env instance crt_vifs h1 Hok) in Hn.
    simpl in Hn. apply (f_equal creations) in Hn.
    rewrite !creations_create_trace in Hn. symmetry. exact Hn. }
  rewrite Hn.
  destruct (snd (PlugVifs.create_each env instance crt_vifs h1))
    as [[]|e] eqn:Eb; simpl.
  - set (h2 := h1 ++ create_trace instance (firstn n crt_vifs)).
    pose proof (wait_events_quiet env instance events h2) as Hq.
    destruct (wait_events env _ events h2) as [tw [[]|e]] eqn:Ew;
      simpl in *.
    + exists n, tw, (Return cnas). split; [|split; [|split; [|exact Hall]]].
      * rewrite app_nil_r. reflexivity.
      * exact Hq.
      * intros v Hv. injection Hv as <-. reflexivity.
    + destruct (is_Timeout e); simpl.
      * exists n, (tw ++ [PlugVifs.timeout_error instance]),
          (Raise (VirtualInterfaceCreateException create_msg_fmt)).
        split; [|split; [|split; [|exact Hall]]].
        -- rewrite <- !app_assoc. reflexivity.
        -- apply quiet_app; [exact Hq | repeat constructor].
        -- intros v Hv. discriminate.
      * exists n, tw, (Raise e). split; [|split; [|split; [|exact Hall]]].
        -- reflexivity.
        -- exact Hq.
        -- intros v Hv. discriminate.
  - destruct (is_Timeout e); simpl.
    + exists n, [PlugVifs.timeout_error instance],
        (Raise (VirtualInterfaceCreateException create_msg_fmt)).
      split; [|split; [|split; [|exact Hall]]].
      * reflexivity.
      * repeat constructor.
      * intros v Hv. discriminate.
    + exists n, [], (Raise e). split; [|split; [|split; [|exact Hall]]].
      * rewrite app_nil_r. reflexivity.
      * constructor.
      * intros v Hv. discriminate.
Qed.

Lemma plug_run_success :
  crt_vifs <> [] ->
  fst (can_modify_io env ((h ++ [PlugVifs.plugging_info instance])
                          ++ [get_cnas_call])) = true ->
  (forall t vif, crt_vif env t vif = None) ->
  (forall t ev, In ev events -> event_status env t ev = Completed) ->
  PlugVifs.execute norm_mac env instance network_info h
  = (prologue ++ create_trace instance crt_vifs, Return cnas).
Proof.
  intros Hne Hmod Hok Hdone. unfold PlugVifs.execute.
  rewrite bind_emit, bind_run. unfold vm_get_cnas at 1 2 3 4. simpl.
  rewrite Hcnas.
  destruct (List.length crt_vifs =? 0)%nat eqn:El.
  { apply length_eqb_nil in El. contradiction. }
  rewrite bind_run. unfold lpar_can_modify_io at 1 2 3 4. simpl.
  destruct (can_modify_io env _) as [modifiable reason].
  simpl in Hmod. subst modifiable. simpl.
  rewrite bind_run. unfold try_except, wait_for_instance_event.
  rewrite bind_emit. rewrite bind_run.
  rewrite create_each_ok by exact Hok. simpl.
  rewrite wait_events_completed by exact Hdone. simpl.
  rewrite !app_nil_r. reflexivity.
Qed.

End PlugExecute.

(** ** Runs of [UnplugVifs.execute] *)

Section UnplugRuns.
Variable norm_mac : string -> string.
Variable env : Env.
Variable instance : Instance.

Local Abbreviation delete_first_match :=
  (UnplugVifs.delete_first_match norm_mac env instance).
Local Abbreviation unplug_each :=
  (UnplugVifs.unplug_each norm_mac env instance).




(** The outer loop over a concatenation is the loop over the first part
    followed by the loop over the second. *)
Lemma unplug_each_app (vifs1 vifs2 : list VIF) (cnas : list CNA) (h : Trace) :
  unplug_each (vifs1 ++ vifs2) cnas h
  = (unplug_each vifs1 cnas ;; unplug_each vifs2 cnas) h.
Proof.
  revert h. induction vifs1 as [|vif rest IH]; intros h.
  - simpl. rewrite bind_run. simpl. rewrite app_nil_r.
    destruct (unplug_each vifs2 cnas h); reflexivity.
  - simpl. rewrite !bind_run.
    destruct (snd (delete_first_match vif cnas h)) as [broke|e]; simpl;
      [|reflexivity].
    rewrite !bind_run.
    match goal with
    | |- context [snd ((if broke then ?a else ?b) ?h1)] =>
        destruct (snd ((if broke then a else b) h1)); simpl; [|reflexivity]
    end.
    rewrite IH. rewrite !bind_run.
    match goal with
    | |- context [snd (unplug_each rest cnas ?h2)] =>
        destruct (snd (unplug_each rest cnas h2)); simpl; [|reflexivity]
    end.
    rewrite <- !app_assoc. reflexivity.
Qed.



Lemma unplug_run_locked (network_info : list VIF) (h : Trace)
    (reason : string) :
  can_modify_io env (h ++ [UnplugVifs.unplugging_info instance])
  = (false, reason) ->
  UnplugVifs.execute norm_mac env instance network_info h
  = ([UnplugVifs.unplugging_info instance; can_modify_io_call;
      UnplugVifs.not_modifiable_error instance reason],
     Raise (VirtualInterfaceUnplugException msg_fmt)).
Proof.
  intros Hlocked. unfold UnplugVifs.execute.
  rewrite bind_emit, bind_run. unfold lpar_can_modify_io at 1 2 3 4. simpl.
  rewrite Hlocked. reflexivity.
Qed.

Lemma unplug_run_modifiable (network_info : list VIF) (h : Trace) :
  fst (can_modify_io env (h ++ [UnplugVifs.unplugging_info instance]))
  = true ->
  exists hc,
    UnplugVifs.execute norm_mac env instance network_info h
    = (UnplugVifs.unplugging_info instance :: can_modify_io_call
         :: get_cnas_call
         :: fst (unplug_each network_info (get_cnas env hc)
                             (hc ++ [get_cnas_call])),
       match snd (unplug_each network_info (get_cnas env hc)
                              (hc ++ [get_cnas_call])) with
       | Return _ => Return (get_cnas env hc)
       | Raise e => Raise e
       end).
Proof.
  intros Hmod. unfold UnplugVifs.execute.
  rewrite bind_emit, bind_run. unfold lpar_can_modify_io at 1 2 3 4. simpl.
  destruct (can_modify_io env _) as [modifiable reason].
  simpl in Hmod. subst modifiable. simpl.
  rewrite bind_run. unfold vm_get_cnas at 1 2 3 4. simpl.
  exists ((h ++ [UnplugVifs.unplugging_info instance])
          ++ [can_modify_io_call]).
  rewrite bind_run.
  match goal with
  | |- context [snd (unplug_each network_info ?c ?h2)] =>
      destruct (snd (unplug_each network_info c h2)); simpl
  end.
  - rewrite app_nil_r. reflexivity.
  - reflexivity.
Qed.
End UnplugRuns.

(** * The claims *)

(** ** The list of VIFs to create *)

(** Whatever the normalization is, an address that it changes separates the
    source's test from the equality of normalized addresses: an interface
    and an adapter carrying that same address do not match. *)
Lemma trim_vifs_unnormalized (norm_mac : string -> string) (a i u : string)
    (act : option bool) :
  norm_mac a <> a ->
  PlugVifs.trim_vifs norm_mac [mkVIF a i act] [mkCNA a u] = [mkVIF a i act]
  /\ toCreate_spec norm_mac [mkVIF a i act] [mkCNA a u] = [].
Proof.
  intros Hchanged. split.
  - simpl. apply String.eqb_neq in Hchanged. rewrite Hchanged. reflexivity.
  - unfold toCreate_spec, same_norm_mac. simpl.
    rewrite String.eqb_refl. reflexivity.
Qed.

(** C2, as stated, fails: a desired interface whose address is not written
    in normalized form stays in the list of VIFs to create although a live
    adapter has the same normalized hardware address. *)
Lemma trim_vifs_keeps_unnormalized_address :
  PlugVifs.trim_vifs norm_mac_lower [vif_AABB] [cna_AABB] = [vif_AABB]
  /\ norm_mac_lower (mac cna_AABB) = norm_mac_lower (address vif_AABB)
  /\ toCreate_spec norm_mac_lower [vif_AABB] [cna_AABB] = [].
Proof. repeat split. Qed.

(** C2, amended: for every desired list [D] and adapter list [A], the list
    of VIFs to create holds exactly the elements of [D], in [D]'s order, for
    which no adapter of [A] has a normalized hardware address equal to the
    element's address as it was supplied; so no element of the list has such
    a match in [A].  When the desired addresses are already written in
    normalized form, this is the list of the desired interfaces without an
    adapter of equal normalized hardware address. *)
Theorem trim_vifs_unmatched :
  forall (norm_mac : string -> string) (D : list VIF) (A : list CNA),
    PlugVifs.trim_vifs norm_mac D A
    = filter (fun vif =>
                negb (existsb (fun c => norm_mac (mac c) =? address vif) A)) D
    /\ (forall vif c,
          In vif (PlugVifs.trim_vifs norm_mac D A) -> In c A ->
          norm_mac (mac c) <> address vif)
    /\ ((forall vif, In vif D -> norm_mac (address vif) = address vif) ->
        PlugVifs.trim_vifs norm_mac D A = toCreate_spec norm_mac D A).
Proof.
  intros norm_mac D A. split; [|split].
  - rewrite trim_vifs_filter. apply filter_ext. intros vif.
    rewrite has_cna_existsb. reflexivity.
  - intros vif c Hin Hc. rewrite trim_vifs_filter in Hin.
    apply filter_In in Hin. destruct Hin as [_ Hno].
    apply negb_true_iff in Hno.
    apply (proj1 (has_cna_false norm_mac vif A) Hno c Hc).
  - apply trim_vifs_canonical.
Qed.

Lemma trim_vifs_unmatched_witness :
  toCreate_spec norm_mac_lower [vif_aabb; vif_ccdd] [cna_AABB] = [vif_ccdd]
  /\ norm_mac_lower (mac cna_AABB) <> address vif_ccdd.
Proof.
  split.
  - rewrite <- (proj2 (proj2 (trim_vifs_unmatched norm_mac_lower
                               [vif_aabb; vif_ccdd] [cna_AABB]))).
    + reflexivity.
    + intros vif [<- | [<- | []]]; reflexivity.
  - apply (proj1 (proj2 (trim_vifs_unmatched norm_mac_lower
                           [vif_aabb; vif_ccdd] [cna_AABB]))
             vif_ccdd cna_AABB).
    + simpl. left. reflexivity.
    + simpl. left. reflexivity.
Defined.

(** ** The wait set *)

Lemma _get_vif_events_gate (env : Env) (network_info : list VIF) :
  PlugVifs._get_vif_events env network_info
  = if events_required env
    then map vif_plugged
             (filter (fun vif => negb (get_active vif true)) network_info)
    else [].
Proof. reflexivity. Qed.

Lemma _get_vif_events_origin (env : Env) (network_info : list VIF)
    (e : EventName) :
  In e (PlugVifs._get_vif_events env network_info) ->
  exists vif, In vif network_info /\ active vif = Some false
              /\ e = vif_plugged vif.
Proof.
  rewrite _get_vif_events_gate.
  destruct (events_required env); [|intros []].
  intros Hin. apply in_map_iff in Hin. destruct Hin as [vif [<- Hin]].
  apply filter_In in Hin. destruct Hin as [Hin Hact].
  exists vif. split; [exact Hin|]. split; [|reflexivity].
  unfold get_active in Hact. destruct (active vif) as [[|]|];
    try discriminate Hact. reflexivity.
Qed.




(** The wait entries registered by a run on a modifiable machine with
    something to create are those of [_get_vif_events]. *)
Lemma plug_registered (norm_mac : string -> string) (env : Env)
    (instance : Instance) (network_info : list VIF) (h : Trace) :
  PlugVifs.trim_vifs norm_mac network_info
    (get_cnas env (h ++ [PlugVifs.plugging_info instance])) <> [] ->
  fst (can_modify_io env ((h ++ [PlugVifs.plugging_info instance])
                          ++ [get_cnas_call])) = true ->
  registered (trace_of (PlugVifs.execute norm_mac env instance network_info)
                       h)
  = PlugVifs._get_vif_events env network_info.
Proof.
  intros Hne Hmod.
  destruct (plug_run_shape norm_mac env instance network_info h _ eq_refl
              Hne Hmod) as [n [tw [o [Hrun [Hq _]]]]].
  unfold trace_of. rewrite Hrun. simpl.
  rewrite !registered_app, registered_create_trace.
  rewrite (quiet_registered _ Hq). simpl. rewrite app_nil_r. reflexivity.
Qed.

(** In every run, whatever the collaborators answer, the registered wait
    entries are among those of [_get_vif_events]. *)
Lemma plug_registered_incl (norm_mac : string -> string) (env : Env)
    (instance : Instance) (network_info : list VIF) (h : Trace)
    (e : EventName) :
  In e (registered (trace_of (PlugVifs.execute norm_mac env instance
                                               network_info) h)) ->
  In e (PlugVifs._get_vif_events env network_info).
Proof.
  set (cnas := get_cnas env (h ++ [PlugVifs.plugging_info instance])).
  destruct (PlugVifs.trim_vifs norm_mac network_info cnas) eqn:Ecrt.
  - unfold trace_of.
    rewrite (plug_run_empty norm_mac env instance network_info h cnas
               eq_refl Ecrt).
    intros [].
  - assert (Hne : PlugVifs.trim_vifs norm_mac network_info cnas <> [])
      by (rewrite Ecrt; discriminate).
    destruct (can_modify_io env ((h ++ [PlugVifs.plugging_info instance])
                                 ++ [get_cnas_call]))
      as [[|] reason] eqn:Est.
    + rewrite plug_registered; [trivial | exact Hne | rewrite Est; reflexivity].
    + unfold trace_of.
      rewrite (plug_run_locked norm_mac env instance network_info h cnas
                 eq_refl reason Hne Est).
      intros [].
Qed.




(** C10: a desired interface without an 'active' entry counts as active.
    It contributes nothing to the wait set, also when neutron is used and
    the fatal policy and the timeout are set: the wait set is the one of the
    desired list without that interface, and every wait entry a plug
    operation registers belongs to another interface, one whose 'active'
    flag is present and false. *)
Theorem absent_active_registers_no_wait :
  forall (norm_mac : string -> string) (env : Env) (instance : Instance)
         (pre post : list VIF) (vif : VIF) (h : Trace),
    active vif = None ->
    PlugVifs._get_vif_events env (pre ++ vif :: post)
    = PlugVifs._get_vif_events env (pre ++ post)
    /\ forall e,
         In e (registered
                 (trace_of (PlugVifs.execute norm_mac env instance
                              (pre ++ vif :: post)) h)) ->
         exists v, In v (pre ++ post) /\ active v = Some false
                   /\ e = vif_plugged v.
Proof.
  intros norm_mac env instance pre post vif h Hact.
  assert (Heq : PlugVifs._get_vif_events env (pre ++ vif :: post)
                = PlugVifs._get_vif_events env (pre ++ post)).
  { rewrite !_get_vif_events_gate. destruct (events_required env);
      [|reflexivity].
    rewrite !filter_app. simpl. unfold get_active at 2. rewrite Hact.
    reflexivity. }
  split; [exact Heq|].
  intros e Hin. apply plug_registered_incl in Hin. rewrite Heq in Hin.
  apply _get_vif_events_origin in Hin. exact Hin.
Qed.

Lemma absent_active_registers_no_wait_witness :
  PlugVifs._get_vif_events (neutron_env []) [vif_aabb; vif_no_active]
  = [vif_plugged vif_aabb].
Proof.
  exact (eq_trans
           (proj1 (absent_active_registers_no_wait norm_mac_lower
                     (neutron_env []) inst1 [vif_aabb] [] vif_no_active []
                     eq_refl))
           eq_refl).
Defined.

(** ** The result of the plug operation *)

Lemma fetches_app (t1 t2 : Trace) :
  fetches (t1 ++ t2) = (fetches t1 + fetches t2)%nat.
Proof. unfold fetches. rewrite filter_app. apply length_app. Qed.

Lemma quiet_fetches (t : Trace) : quiet t -> fetches t = 0%nat.
Proof.
  induction 1 as [|ev t Hev _ IH]; [reflexivity|].
  destruct ev; try discriminate Hev. exact IH.
Qed.

Lemma fetches_create_trace (instance : Instance) (vifs : list VIF) :
  fetches (create_trace instance vifs) = 0%nat.
Proof. induction vifs as [|vif rest IH]; [reflexivity | exact IH]. Qed.

(** C3: the plug operation returns the adapter list that [vm.get_cnas]
    answered at its start, before any creation -- whatever the hypervisor
    would answer later, for it is not asked again -- whenever there is
    something to create; and it does return it when the machine is
    modifiable, the creations succeed and the registered events complete.
    With nothing to create it returns the empty list at once: it has only
    logged and fetched, and made no modifiability check, no event-wait
    registration and no creation. *)
Theorem plug_returns_prior_adapters :
  forall (norm_mac : string -> string) (env : Env) (instance : Instance)
         (network_info : list VIF) (cnas : list CNA) (h : Trace),
    get_cnas env (h ++ [PlugVifs.plugging_info instance]) = cnas ->
    let run := PlugVifs.execute norm_mac env instance network_info in
    let crt_vifs := PlugVifs.trim_vifs norm_mac network_info cnas in
    (crt_vifs = [] ->
     run h = ([PlugVifs.plugging_info instance; get_cnas_call], Return [])
     /\ state_checks (trace_of run h) = 0%nat
     /\ waits (trace_of run h) = 0%nat
     /\ creations (trace_of run h) = [])
    /\ (crt_vifs <> [] ->
        (forall v, outcome_of run h = Return v -> v = cnas)
        /\ (exists t2,
              trace_of run h
              = PlugVifs.plugging_info instance :: get_cnas_call :: t2
              /\ fetches t2 = 0%nat)
        /\ (fst (can_modify_io env
                   ((h ++ [PlugVifs.plugging_info instance])
                    ++ [get_cnas_call])) = true ->
            (forall t vif, crt_vif env t vif = None) ->
            (forall t ev,
                In ev (PlugVifs._get_vif_events env network_info) ->
                event_status env t ev = Completed) ->
            outcome_of run h = Return cnas)).
Proof.
  intros norm_mac env instance network_info cnas h Hc run crt_vifs.
  split.
  - intros Hempty. unfold run, trace_of.
    rewrite (plug_run_empty norm_mac env instance network_info h cnas Hc
               Hempty).
    repeat split.
  - intros Hne.
    destruct (can_modify_io env ((h ++ [PlugVifs.plugging_info instance])
                                 ++ [get_cnas_call]))
      as [[|] reason] eqn:Est.
    + assert (Hmod : fst (can_modify_io env
                            ((h ++ [PlugVifs.plugging_info instance])
                             ++ [get_cnas_call])) = true)
        by (rewrite Est; reflexivity).
      destruct (plug_run_shape norm_mac env instance network_info h cnas Hc
                  Hne Hmod) as [n [tw [o [Hrun [Hq [Hret _]]]]]].
      unfold run, outcome_of, trace_of. rewrite Hrun. simpl.
      split; [exact Hret|]. split.
      * eexists. split; [reflexivity|].
        change (fetches ([can_modify_io_call;
                          wait_for_instance_event_call
                            (PlugVifs._get_vif_events env network_info)
                            (vif_plugging_timeout env)]
                         ++ create_trace instance
                              (firstn n (PlugVifs.trim_vifs norm_mac
                                           network_info cnas)) ++ tw)
                = 0%nat).
        rewrite !fetches_app, fetches_create_trace, (quiet_fetches _ Hq).
        reflexivity.
      * intros _ Hok Hdone.
        pose proof (plug_run_success norm_mac env instance network_info h
                      cnas Hc Hne Hmod Hok Hdone) as Hs.
        rewrite Hrun in Hs. apply (f_equal snd) in Hs. exact Hs.
    + unfold run, outcome_of, trace_of.
      rewrite (plug_run_locked norm_mac env instance network_info h cnas Hc
                 reason Hne Est).
      simpl. split; [intros v Hv; discriminate Hv|]. split.
      * eexists. split; reflexivity.
      * intros Hmod. discriminate Hmod.
Qed.

(** On a hypervisor whose list follows the creations, the operation returns
    the list of before the creation, not the one the hypervisor shows at
    the end of the run. *)
Lemma plug_returns_prior_adapters_witness :
  (outcome_of (PlugVifs.execute norm_mac_lower
                 (live_env true eth0 [cna_AABB]) inst1
                 [vif_aabb; vif_ccdd]) []
   = Return [cna_AABB]
   /\ get_cnas (live_env true eth0 [cna_AABB])
        (trace_of (PlugVifs.execute norm_mac_lower
                     (live_env true eth0 [cna_AABB]) inst1
                     [vif_aabb; vif_ccdd]) [])
      = [cna_AABB; adapter_of eth0 vif_ccdd])
  /\ PlugVifs.execute norm_mac_lower (live_env true eth0 [cna_AABB]) inst1
       [vif_aabb] []
     = ([PlugVifs.plugging_info inst1; get_cnas_call], Return []).
Proof.
  split; [split|].
  - refine (proj2 (proj2 (proj2 (plug_returns_prior_adapters norm_mac_lower
              (live_env true eth0 [cna_AABB]) inst1 [vif_aabb; vif_ccdd]
              [cna_AABB] [] _) _)) _ _ _).
    + reflexivity.
    + discriminate.
    + reflexivity.
    + intros t vif. reflexivity.
    + intros t ev _. reflexivity.
  - reflexivity.
  - refine (proj1 (proj1 (plug_returns_prior_adapters norm_mac_lower
              (live_env true eth0 [cna_AABB]) inst1 [vif_aabb]
              [cna_AABB] [] _) _)).
    + reflexivity.
    + reflexivity.
Defined.

(** ** The modifiability check *)

(** C4: when the machine state reports that it cannot be modified, the
    unplug operation raises [VirtualInterfaceUnplugException], the plug
    operation raises [VirtualInterfaceCreateException] when something is to
    be created, and neither operation calls a creation or a deletion. *)
Theorem not_modifiable_no_mutation :
  forall (norm_mac : string -> string) (env : Env) (instance : Instance)
         (network_info : list VIF) (cnas : list CNA) (h : Trace),
    (forall t, get_cnas env t = cnas) ->
    (forall t, fst (can_modify_io env t) = false) ->
    let unplug := UnplugVifs.execute norm_mac env instance network_info in
    let plug := PlugVifs.execute norm_mac env instance network_info in
    (outcome_of unplug h = Raise (VirtualInterfaceUnplugException msg_fmt)
     /\ creations (trace_of unplug h) = []
     /\ deletions (trace_of unplug h) = [])
    /\ (creations (trace_of plug h) = [] /\ deletions (trace_of plug h) = [])
    /\ (PlugVifs.trim_vifs norm_mac network_info cnas <> [] ->
        outcome_of plug h
        = Raise (VirtualInterfaceCreateException create_msg_fmt)).
Proof.
  intros norm_mac env instance network_info cnas h Hcnas Hlocked unplug plug.
  pose proof (Hcnas (h ++ [PlugVifs.plugging_info instance])) as Hc.
  split; [|split].
  - pose proof (Hlocked (h ++ [UnplugVifs.unplugging_info instance])) as Hl.
    destruct (can_modify_io env (h ++ [UnplugVifs.unplugging_info instance]))
      as [modifiable reason] eqn:Est.
    simpl in Hl. subst modifiable.
    unfold unplug, outcome_of, trace_of.
    rewrite (unplug_run_locked norm_mac env instance network_info h reason
               Est).
    repeat split.
  - unfold plug, trace_of.
    destruct (PlugVifs.trim_vifs norm_mac network_info cnas) eqn:Ecrt.
    + rewrite (plug_run_empty norm_mac env instance network_info h cnas Hc
                 Ecrt).
      split; reflexivity.
    + assert (Hne : PlugVifs.trim_vifs norm_mac network_info cnas <> [])
        by (rewrite Ecrt; discriminate).
      pose proof (Hlocked ((h ++ [PlugVifs.plugging_info instance])
                           ++ [get_cnas_call])) as Hl.
      destruct (can_modify_io env _) as [modifiable reason] eqn:Est.
      simpl in Hl. subst modifiable.
      rewrite (plug_run_locked norm_mac env instance network_info h cnas Hc
                 reason Hne Est).
      split; reflexivity.
  - intros Hne.
    pose proof (Hlocked ((h ++ [PlugVifs.plugging_info instance])
                         ++ [get_cnas_call])) as Hl.
    destruct (can_modify_io env _) as [modifiable reason] eqn:Est.
    simpl in Hl. subst modifiable.
    unfold plug, outcome_of.
    rewrite (plug_run_locked norm_mac env instance network_info h cnas Hc
               reason Hne Est).
    reflexivity.
Qed.

Lemma not_modifiable_no_mutation_witness :
  outcome_of (UnplugVifs.execute norm_mac_lower
                (locked_env [cna_AABB] "LPAR is not active") inst1
                [vif_aabb]) []
  = Raise (VirtualInterfaceUnplugException msg_fmt)
  /\ outcome_of (PlugVifs.execute norm_mac_lower
                   (locked_env [cna_AABB] "LPAR is not active") inst1
                   [vif_ccdd]) []
     = Raise (VirtualInterfaceCreateException create_msg_fmt).
Proof.
  split.
  - refine (proj1 (proj1 (not_modifiable_no_mutation norm_mac_lower
              (locked_env [cna_AABB] "LPAR is not active") inst1 [vif_aabb]
              [cna_AABB] [] _ _))).
    + intros t. reflexivity.
    + intros t. reflexivity.
  - refine (proj2 (proj2 (not_modifiable_no_mutation norm_mac_lower
              (locked_env [cna_AABB] "LPAR is not active") inst1 [vif_ccdd]
              [cna_AABB] [] _ _)) _).
    + intros t. reflexivity.
    + intros t. reflexivity.
    + discriminate.
Defined.

(** C5, as stated, fails: the exception raised by the unplug operation is
    the same whatever reason the machine reports, so the reason cannot be
    read off it. *)
Lemma unplug_exception_does_not_carry_reason :
  outcome_of (UnplugVifs.execute norm_mac_lower
                (locked_env [cna_AABB] "LPAR is not active") inst1
                [vif_aabb]) []
  = Raise (VirtualInterfaceUnplugException "Virtual interface unplug failed")
  /\ outcome_of (UnplugVifs.execute norm_mac_lower
                   (locked_env [cna_AABB] "RMC is not active") inst1
                   [vif_aabb]) []
     = Raise (VirtualInterfaceUnplugException
                "Virtual interface unplug failed")
  /\ "LPAR is not active" <> "RMC is not active".
Proof. repeat split. discriminate. Qed.

(** C5, amended: when the machine is not modifiable the unplug operation
    fails at once with a [VirtualInterfaceUnplugException] that carries the
    fixed message of its class; the reason reported by the machine is
    written to the error log.  Nothing else happens: no adapter fetch and no
    deletion. *)
Theorem unplug_not_modifiable_fails_up_front :
  forall (norm_mac : string -> string) (env : Env) (instance : Instance)
         (network_info : list VIF) (reason : string) (h : Trace),
    (forall t, can_modify_io env t = (false, reason)) ->
    let run := UnplugVifs.execute norm_mac env instance network_info in
    run h
    = ([UnplugVifs.unplugging_info instance; can_modify_io_call;
        LOG ERROR
          "Unable to remove VIFs from instance %(inst)s because the system is not in a correct state.  The reason reported by the system is: %(reason)s"
          [name instance; reason]],
       Raise (VirtualInterfaceUnplugException
                "Virtual interface unplug failed"))
    /\ fetches (trace_of run h) = 0%nat
    /\ deletions (trace_of run h) = [].
Proof.
  intros norm_mac env instance network_info reason h Hlocked run.
  unfold run, trace_of.
  rewrite (unplug_run_locked norm_mac env instance network_info h reason
             (Hlocked _)).
  repeat split.
Qed.

Lemma unplug_not_modifiable_fails_up_front_witness :
  fetches (trace_of (UnplugVifs.execute norm_mac_lower
                       (locked_env [cna_AABB] "RMC is not active") inst1
                       [vif_aabb]) []) = 0%nat.
Proof.
  refine (proj1 (proj2 (unplug_not_modifiable_fails_up_front norm_mac_lower
            (locked_env [cna_AABB] "RMC is not active") inst1 [vif_aabb]
            "RMC is not active" [] _))).
  intros t. reflexivity.
Defined.

(** ** Unplugging an interface that has no adapter *)

(** For an idempotent normalization, an interface without an adapter of
    equal normalized hardware address has no match under the source's test
    either. *)
Lemma no_same_norm_mac_no_match (norm_mac : string -> string) (vif : VIF)
    (cnas : list CNA) :
  (forall s, norm_mac (norm_mac s) = norm_mac s) ->
  (forall c, In c cnas -> same_norm_mac norm_mac c vif = false) ->
  forall c, In c cnas -> norm_mac (mac c) <> address vif.
Proof.
  intros Hidem Hno c Hc Hm. specialize (Hno c Hc).
  rewrite (match_same_norm_mac norm_mac c vif Hidem Hm) in Hno.
  discriminate Hno.
Qed.



(** ** Duplicates in the desired list *)






(** ** The timeout *)



(** ** The management interface *)

Lemma on_vswitch_exists (vswitch_w : VSwitch) (vm_cnas : list CNA) :
  PlugMgmtVif.on_vswitch vswitch_w vm_cnas = true <->
  exists c, In c vm_cnas /\ vswitch_uri c = href vswitch_w.
Proof.
  induction vm_cnas as [|c rest IH]; simpl.
  - split; [discriminate | intros [c [[] _]]].
  - destruct (vswitch_uri c =? href vswitch_w) eqn:E.
    + apply String.eqb_eq in E. split; [|reflexivity].
      intros _. exists c. split; [left; reflexivity | exact E].
    + apply String.eqb_neq in E. rewrite IH. split.
      * intros [c' [Hin Hc']]. exists c'. split; [right; exact Hin | exact Hc'].
      * intros [c' [[<- | Hin] Hc']]; [contradiction|].
        exists c'. split; assumption.
Qed.

Lemma plug_mgmt_run (env : Env) (instance : Instance) (vm_cnas : list CNA)
    (h : Trace) :
  PlugMgmtVif.execute env instance vm_cnas h
  = match get_secure_rmc_vswitch env
            (h ++ [PlugMgmtVif.plugging_info instance]) with
    | None =>
        ([PlugMgmtVif.plugging_info instance; get_secure_rmc_vswitch_call;
          PlugMgmtVif.no_vswitch_debug instance], Return None)
    | Some vswitch_w =>
        if PlugMgmtVif.on_vswitch vswitch_w vm_cnas then
          ([PlugMgmtVif.plugging_info instance; get_secure_rmc_vswitch_call;
            PlugMgmtVif.already_created_debug instance], Return None)
        else
          ([PlugMgmtVif.plugging_info instance; get_secure_rmc_vswitch_call;
            crt_secure_rmc_vif_call],
           match crt_secure_rmc_vif env
                   ((h ++ [PlugMgmtVif.plugging_info instance])
                    ++ [get_secure_rmc_vswitch_call]) with
           | inr cna_w => Return (Some cna_w)
           | inl e => Raise e
           end)
    end.
Proof.
  unfold PlugMgmtVif.execute. rewrite bind_emit, bind_run.
  unfold vm_get_secure_rmc_vswitch at 1 2 3 4. simpl.
  destruct (get_secure_rmc_vswitch env _) as [vswitch_w|]; [|reflexivity].
  destruct (PlugMgmtVif.on_vswitch vswitch_w vm_cnas); [reflexivity|].
  rewrite bind_run. unfold vm_crt_secure_rmc_vif. simpl.
  destruct (crt_secure_rmc_vif env _); reflexivity.
Qed.

(** C8: the management plug operation creates nothing and returns none if
    and only if the host has no management virtual switch or the supplied
    adapter list holds an adapter bound to that switch.  Otherwise it calls
    the creation exactly once and its outcome is that of the creation: the
    created adapter, which the creation helper binds to the management
    switch. *)
Theorem plug_mgmt_skips_iff :
  forall (env : Env) (instance : Instance) (vm_cnas : list CNA) (h : Trace)
         (vswitch : option VSwitch) (created : Exn + CNA),
    (forall t, get_secure_rmc_vswitch env t = vswitch) ->
    (forall t, crt_secure_rmc_vif env t = created) ->
    (forall c sw, created = inr c -> vswitch = Some sw ->
                  vswitch_uri c = href sw) ->
    let run := PlugMgmtVif.execute env instance vm_cnas in
    let present :=
      vswitch = None
      \/ exists sw c, vswitch = Some sw /\ In c vm_cnas
                      /\ vswitch_uri c = href sw in
    (present <->
     mgmt_creations (trace_of run h) = 0%nat /\ outcome_of run h = Return None)
    /\ (~ present ->
        mgmt_creations (trace_of run h) = 1%nat
        /\ outcome_of run h = match created with
                              | inr c => Return (Some c)
                              | inl e => Raise e
                              end
        /\ forall c, outcome_of run h = Return (Some c) ->
                     exists sw, vswitch = Some sw /\ vswitch_uri c = href sw).
Proof.
  intros env instance vm_cnas h vswitch created Hsw Hcrt Hbound run present.
  unfold run, trace_of, outcome_of. rewrite plug_mgmt_run, Hsw, Hcrt.
  destruct vswitch as [sw|].
  - destruct (PlugMgmtVif.on_vswitch sw vm_cnas) eqn:Eon.
    + assert (Hp : present).
      { right. apply on_vswitch_exists in Eon. destruct Eon as [c [Hin Hc]].
        exists sw, c. repeat split; assumption. }
      split; [split; [intros _; split; reflexivity | intros _; exact Hp]|].
      intros Hnp. contradiction.
    + assert (Hnp : ~ present).
      { intros [Hnone | [sw' [c [Heq [Hin Hc]]]]]; [discriminate Hnone|].
        injection Heq as <-.
        assert (Hex : exists c, In c vm_cnas /\ vswitch_uri c = href sw)
          by (exists c; split; assumption).
        apply on_vswitch_exists in Hex. rewrite Hex in Eon. discriminate Eon. }
      split.
      * split; [intros Hp; contradiction|].
        intros [Hcount _]. discriminate Hcount.
      * intros _. simpl. split; [reflexivity|]. split; [reflexivity|].
        intros c Hc. exists sw. split; [reflexivity|].
        destruct created as [e|c']; [discriminate Hc|].
        injection Hc as ->. apply (Hbound c sw eq_refl eq_refl).
  - assert (Hp : present) by (left; reflexivity).
    split; [split; [intros _; split; reflexivity | intros _; exact Hp]|].
    intros Hnp. contradiction.
Qed.

Lemma plug_mgmt_skips_iff_witness :
  (mgmt_creations
     (trace_of (PlugMgmtVif.execute (neutron_env []) inst1 [cna_AABB]) [])
   = 1%nat
   /\ outcome_of (PlugMgmtVif.execute (neutron_env []) inst1 [cna_AABB]) []
      = Return (Some mgmt_cna))
  /\ outcome_of (PlugMgmtVif.execute (no_mgmt_env []) inst1 [cna_AABB]) []
     = Return None.
Proof.
  split.
  - destruct (plug_mgmt_skips_iff (neutron_env []) inst1 [cna_AABB] []
                (Some mgmt_switch) (inr mgmt_cna)) as [_ Hcreate].
    + intros t. reflexivity.
    + intros t. reflexivity.
    + intros c sw Hc Hs. injection Hc as <-. injection Hs as <-. reflexivity.
    + destruct Hcreate as [Hone [Hout _]].
      * intros [Hnone | [sw [c [Hs [[<- | []] Huri]]]]].
        -- discriminate Hnone.
        -- injection Hs as <-. discriminate Huri.
      * split; [exact Hone | exact Hout].
  - destruct (plug_mgmt_skips_iff (no_mgmt_env []) inst1 [cna_AABB] []
                None (inr mgmt_cna)) as [Hskip _].
    + intros t. reflexivity.
    + intros t. reflexivity.
    + intros c sw _ Hs. discriminate Hs.
    + apply Hskip. left. reflexivity.
Defined.

(** * Further properties of the tasks *)

(** ** Unplugging: which adapters are deleted *)

Lemma warnings_app (t1 t2 : Trace) :
  warnings (t1 ++ t2) = (warnings t1 + warnings t2)%nat.
Proof. unfold warnings. rewrite filter_app. apply length_app. Qed.

Section UnplugDeletes.
Variable norm_mac : string -> string.
Variable env : Env.
Variable instance : Instance.
Variable delete_fails : CNA -> option Exn.
Hypothesis Hdelete : forall t c, delete env t c = delete_fails c.

Local Abbreviation delete_first_match :=
  (UnplugVifs.delete_first_match norm_mac env instance).
Local Abbreviation unplug_each :=
  (UnplugVifs.unplug_each norm_mac env instance).

(** The inner loop, when the answer of [delete] depends on the adapter
    only: it stops at the first match and deletes it, or converts the
    failure of that deletion. *)
Lemma delete_first_match_run (vif : VIF) (cnas : list CNA) (h : Trace) :
  delete_first_match vif cnas h
  = match first_match norm_mac vif cnas with
    | None => ([], Return false)
    | Some c =>
        match delete_fails c with
        | None =>
            ([UnplugVifs.deleting_info instance vif; delete_call c],
             Return true)
        | Some e =>
            if is_Exception e
            then ([UnplugVifs.deleting_info instance vif; delete_call c]
                  ++ delete_failed_log instance vif e,
                  Raise (VirtualInterfaceUnplugException msg_fmt))
            else ([UnplugVifs.deleting_info instance vif; delete_call c],
                  Raise e)
        end
    end.
Proof.
  unfold first_match. induction cnas as [|c rest IH]; [reflexivity|].
  simpl. destruct (norm_mac (mac c) =? address vif); [|exact IH].
  rewrite bind_emit, bind_run. unfold try_except, cna_delete. simpl.
  rewrite Hdelete. destruct (delete_fails c) as [e|]; [|reflexivity].
  destruct (is_Exception e); reflexivity.
Qed.

Lemma unplug_each_run_ok (vifs : list VIF) (cnas : list CNA) (h : Trace) :
  (forall vif c, In vif vifs -> first_match norm_mac vif cnas = Some c ->
                 delete_fails c = None) ->
  unplug_each vifs cnas h
  = (unplug_trace norm_mac instance vifs cnas, Return tt).
Proof.
  revert h. induction vifs as [|vif rest IH]; intros h Hok; [reflexivity|].
  simpl. rewrite bind_run, delete_first_match_run.
  assert (Hrest : forall v c, In v rest ->
                              first_match norm_mac v cnas = Some c ->
                              delete_fails c = None).
  { intros v c Hv. apply Hok. right. exact Hv. }
  destruct (first_match norm_mac vif cnas) as [c|] eqn:Ematch.
  - rewrite (Hok vif c (or_introl eq_refl) Ematch). simpl.
    rewrite bind_run. simpl. rewrite IH by exact Hrest. reflexivity.
  - simpl. rewrite bind_emit. rewrite IH by exact Hrest. reflexivity.
Qed.

Lemma unplug_each_run_fail (pre post : list VIF) (vif : VIF)
    (cnas : list CNA) (c : CNA) (e : Exn) (h : Trace) :
  (forall v c', In v pre -> first_match norm_mac v cnas = Some c' ->
                delete_fails c' = None) ->
  first_match norm_mac vif cnas = Some c ->
  delete_fails c = Some e ->
  unplug_each (pre ++ vif :: post) cnas h
  = (unplug_trace norm_mac instance pre cnas
     ++ [UnplugVifs.deleting_info instance vif; delete_call c]
     ++ (if is_Exception e then delete_failed_log instance vif e else []),
     Raise (if is_Exception e
            then VirtualInterfaceUnplugException msg_fmt else e)).
Proof.
  intros Hpre Hmatch Hfail.
  rewrite unplug_each_app, bind_run, unplug_each_run_ok by exact Hpre.
  simpl. rewrite bind_run, delete_first_match_run, Hmatch, Hfail.
  destruct (is_Exception e); reflexivity.
Qed.
End UnplugDeletes.

(** X1: a deletion that fails ends the unplug operation at once.  The
    interfaces listed before it have been handled (their adapters stay
    deleted, nothing is undone), those listed after it are not looked at.
    A failure that is an [Exception] is logged twice and replaced by
    [VirtualInterfaceUnplugException]; any other one leaves the operation
    as it is. *)
Theorem unplug_delete_failure_aborts :
  forall (norm_mac : string -> string) (env : Env) (instance : Instance)
         (pre post : list VIF) (vif : VIF) (cnas : list CNA) (c : CNA)
         (e : Exn) (delete_fails : CNA -> option Exn) (h : Trace),
    (forall t, get_cnas env t = cnas) ->
    (forall t, fst (can_modify_io env t) = true) ->
    (forall t c', delete env t c' = delete_fails c') ->
    (forall v c', In v pre -> first_match norm_mac v cnas = Some c' ->
                  delete_fails c' = None) ->
    first_match norm_mac vif cnas = Some c ->
    delete_fails c = Some e ->
    UnplugVifs.execute norm_mac env instance (pre ++ vif :: post) h
    = (UnplugVifs.unplugging_info instance :: can_modify_io_call
         :: get_cnas_call
         :: unplug_trace norm_mac instance pre cnas
            ++ [UnplugVifs.deleting_info instance vif; delete_call c]
            ++ (if is_Exception e then delete_failed_log instance vif e
                else []),
       Raise (if is_Exception e
              then VirtualInterfaceUnplugException msg_fmt else e)).
Proof.
  intros norm_mac env instance pre post vif cnas c e delete_fails h
         Hcnas Hmod Hdelete Hpre Hmatch Hfail.
  destruct (unplug_run_modifiable norm_mac env instance (pre ++ vif :: post)
              h (Hmod _)) as [hc Hrun].
  rewrite Hrun, Hcnas.
  rewrite (unplug_each_run_fail norm_mac env instance delete_fails Hdelete
             pre post vif cnas c e _ Hpre Hmatch Hfail).
  reflexivity.
Qed.

Lemma unplug_delete_failure_aborts_witness :
  UnplugVifs.execute norm_mac_lower
    (faulty_env [cna_AABB; cna_CCDD] ccdd_delete_fails (fun _ => None)
                (fun _ => Completed))
    inst1 [vif_aabb; vif_ccdd; vif_no_active] []
  = ([UnplugVifs.unplugging_info inst1; can_modify_io_call; get_cnas_call;
      UnplugVifs.deleting_info inst1 vif_aabb; delete_call cna_AABB;
      UnplugVifs.deleting_info inst1 vif_ccdd; delete_call cna_CCDD]
     ++ delete_failed_log inst1 vif_ccdd (OtherException "HTTP 500"),
     Raise (VirtualInterfaceUnplugException msg_fmt)).
Proof.
  refine (unplug_delete_failure_aborts norm_mac_lower
            (faulty_env [cna_AABB; cna_CCDD] ccdd_delete_fails
                        (fun _ => None) (fun _ => Completed))
            inst1 [vif_aabb] [vif_no_active] vif_ccdd
            [cna_AABB; cna_CCDD] cna_CCDD (OtherException "HTTP 500")
            ccdd_delete_fails [] _ _ _ _ _ _).
  - intros t. reflexivity.
  - intros t. reflexivity.
  - intros t c'. reflexivity.
  - intros v c' [<- | []] Hm. injection Hm as <-. reflexivity.
  - reflexivity.
  - reflexivity.
Defined.

(** A run on a modifiable machine, with the history at which the adapters
    are fetched spelled out. *)
Lemma unplug_run_modifiable_at (norm_mac : string -> string) (env : Env)
    (instance : Instance) (network_info : list VIF) (h : Trace) :
  fst (can_modify_io env (h ++ [UnplugVifs.unplugging_info instance]))
  = true ->
  UnplugVifs.execute norm_mac env instance network_info h
  = (UnplugVifs.unplugging_info instance :: can_modify_io_call
       :: get_cnas_call
       :: fst (UnplugVifs.unplug_each norm_mac env instance network_info
                 (get_cnas env
                    ((h ++ [UnplugVifs.unplugging_info instance])
                     ++ [can_modify_io_call]))
                 (((h ++ [UnplugVifs.unplugging_info instance])
                   ++ [can_modify_io_call]) ++ [get_cnas_call])),
     match snd (UnplugVifs.unplug_each norm_mac env instance network_info
                  (get_cnas env
                     ((h ++ [UnplugVifs.unplugging_info instance])
                      ++ [can_modify_io_call]))
                  (((h ++ [UnplugVifs.unplugging_info instance])
                    ++ [can_modify_io_call]) ++ [get_cnas_call])) with
     | Return _ =>
         Return (get_cnas env
                   ((h ++ [UnplugVifs.unplugging_info instance])
                    ++ [can_modify_io_call]))
     | Raise e => Raise e
     end).
Proof.
  intros Hmod. unfold UnplugVifs.execute.
  rewrite bind_emit, bind_run. unfold lpar_can_modify_io at 1 2 3 4. simpl.
  destruct (can_modify_io env _) as [modifiable reason].
  simpl in Hmod. subst modifiable. simpl.
  rewrite bind_run. unfold vm_get_cnas at 1 2 3 4. simpl.
  rewrite bind_run.
  match goal with
  | |- context [snd (UnplugVifs.unplug_each ?n ?e ?i network_info ?c ?h2)] =>
      destruct (snd (UnplugVifs.unplug_each n e i network_info c h2)); simpl
  end.
  - rewrite app_nil_r. reflexivity.
  - reflexivity.
Qed.

(** X2: when no deletion fails on a modifiable machine, the unplug operation
    deletes, for each listed interface in order, the first adapter that
    matches it in the list [vm.get_cnas] answered before the deletions
    (warning when there is none), and returns that list as it was fetched,
    the deleted adapters included -- whatever the hypervisor would answer
    after the deletions. *)
Theorem unplug_deletes_first_matches :
  forall (norm_mac : string -> string) (env : Env) (instance : Instance)
         (network_info : list VIF) (cnas : list CNA) (h : Trace),
    fst (can_modify_io env (h ++ [UnplugVifs.unplugging_info instance]))
    = true ->
    get_cnas env ((h ++ [UnplugVifs.unplugging_info instance])
                  ++ [can_modify_io_call]) = cnas ->
    (forall t c, delete env t c = None) ->
    UnplugVifs.execute norm_mac env instance network_info h
    = (UnplugVifs.unplugging_info instance :: can_modify_io_call
         :: get_cnas_call
         :: unplug_trace norm_mac instance network_info cnas,
       Return cnas).
Proof.
  intros norm_mac env instance network_info cnas h Hmod Hcnas Hdelete.
  rewrite (unplug_run_modifiable_at norm_mac env instance network_info h
             Hmod).
  rewrite Hcnas.
  rewrite (unplug_each_run_ok norm_mac env instance (fun _ => None) Hdelete)
    by reflexivity.
  reflexivity.
Qed.

(** On a hypervisor that drops the deleted adapters from its list, the
    operation still returns the list of before the deletions. *)
Lemma unplug_deletes_first_matches_witness :
  UnplugVifs.execute norm_mac_lower
    (live_env true eth0 [cna_AABB; cna_CCDD]) inst1
    [vif_aabb; vif_no_active; vif_aabb_again] []
  = ([UnplugVifs.unplugging_info inst1; can_modify_io_call; get_cnas_call;
      UnplugVifs.deleting_info inst1 vif_aabb; delete_call cna_AABB;
      UnplugVifs.not_found_warning inst1 vif_no_active;
      UnplugVifs.deleting_info inst1 vif_aabb_again; delete_call cna_AABB],
     Return [cna_AABB; cna_CCDD])
  /\ get_cnas (live_env true eth0 [cna_AABB; cna_CCDD])
       (trace_of (UnplugVifs.execute norm_mac_lower
                    (live_env true eth0 [cna_AABB; cna_CCDD]) inst1
                    [vif_aabb; vif_no_active; vif_aabb_again]) [])
     = [cna_CCDD].
Proof.
  split.
  - refine (unplug_deletes_first_matches norm_mac_lower
              (live_env true eth0 [cna_AABB; cna_CCDD]) inst1
              [vif_aabb; vif_no_active; vif_aabb_again]
              [cna_AABB; cna_CCDD] [] _ _ _).
    + reflexivity.
    + reflexivity.
    + intros t c. reflexivity.
  - reflexivity.
Defined.

(** ** Unplugging: what every run keeps to *)

Section UnplugCounts.
Variable norm_mac : string -> string.
Variable env : Env.
Variable instance : Instance.

Local Abbreviation delete_first_match :=
  (UnplugVifs.delete_first_match norm_mac env instance).
Local Abbreviation unplug_each :=
  (UnplugVifs.unplug_each norm_mac env instance).

Lemma delete_first_match_count (vif : VIF) (cnas : list CNA) (h : Trace) :
  warnings (fst (delete_first_match vif cnas h)) = 0%nat
  /\ registered (fst (delete_first_match vif cnas h)) = []
  /\ (List.length (deletions (fst (delete_first_match vif cnas h))) <= 1)%nat
  /\ (snd (delete_first_match vif cnas h) = Return false ->
      fst (delete_first_match vif cnas h) = [])
  /\ (snd (delete_first_match vif cnas h) = Return true ->
      List.length (deletions (fst (delete_first_match vif cnas h))) = 1%nat).
Proof.
  induction cnas as [|c rest IH].
  - simpl. repeat split; try reflexivity; try lia. discriminate.
  - simpl. destruct (norm_mac (mac c) =? address vif); [|exact IH].
    rewrite bind_emit, bind_run. unfold try_except, cna_delete. simpl.
    destruct (delete env _ c) as [e|]; simpl.
    + destruct (is_Exception e); simpl;
        repeat split; try reflexivity; try lia; discriminate.
    + repeat split; try reflexivity; try lia. discriminate.
Qed.

Lemma unplug_each_count (vifs : list VIF) (cnas : list CNA) (h : Trace) :
  registered (fst (unplug_each vifs cnas h)) = []
  /\ (List.length (deletions (fst (unplug_each vifs cnas h)))
      <= List.length vifs)%nat
  /\ (snd (unplug_each vifs cnas h) = Return tt ->
      (List.length (deletions (fst (unplug_each vifs cnas h)))
       + warnings (fst (unplug_each vifs cnas h)))%nat = List.length vifs).
Proof.
  revert h. induction vifs as [|vif rest IH]; intros h.
  - simpl. repeat split; lia.
  - simpl. rewrite bind_run.
    destruct (delete_first_match_count vif cnas h)
      as [Hw [Hr [Hle [Hfalse Htrue]]]].
    destruct (snd (delete_first_match vif cnas h)) as [broke|e];
      cbn [fst snd].
    + rewrite bind_run. destruct broke; cbn [fst snd ret emit].
      * match goal with
        | |- context [unplug_each rest cnas ?h2] =>
            destruct (IH h2) as [IHr [IHle IHeq]]
        end.
        rewrite !registered_app, !deletions_app, !warnings_app, !length_app.
        rewrite Hr, IHr, Hw, (Htrue eq_refl). simpl.
        split; [reflexivity|]. split; [lia|].
        intros Hret. specialize (IHeq Hret). lia.
      * match goal with
        | |- context [unplug_each rest cnas ?h2] =>
            destruct (IH h2) as [IHr [IHle IHeq]]
        end.
        assert (Hd0 : List.length
                        (deletions (fst (delete_first_match vif cnas h)))
                      = 0%nat)
          by (rewrite (Hfalse eq_refl); reflexivity).
        rewrite !registered_app, !deletions_app, !warnings_app, !length_app.
        rewrite Hr, IHr, Hw, Hd0. simpl.
        split; [reflexivity|]. split; [lia|].
        intros Hret. specialize (IHeq Hret). lia.
    + split; [exact Hr|]. split; [simpl; lia|]. discriminate.
Qed.
End UnplugCounts.



(** X4: in every run of the unplug operation that returns, each listed
    interface is answered by exactly one deletion or one warning: the
    deletions and the warnings add up to the length of the list. *)
Theorem unplug_accounts_for_every_interface :
  forall (norm_mac : string -> string) (env : Env) (instance : Instance)
         (network_info : list VIF) (h : Trace) (v : list CNA),
    outcome_of (UnplugVifs.execute norm_mac env instance network_info) h
    = Return v ->
    let t :=
      trace_of (UnplugVifs.execute norm_mac env instance network_info) h in
    (List.length (deletions t) + warnings t)%nat = List.length network_info.
Proof.
  intros norm_mac env instance network_info h v Hret t.
  unfold t, trace_of, outcome_of in *.
  destruct (can_modify_io env (h ++ [UnplugVifs.unplugging_info instance]))
    as [[|] reason] eqn:Est.
  - destruct (unplug_run_modifiable norm_mac env instance network_info h)
      as [hc Hrun]; [rewrite Est; reflexivity|].
    rewrite Hrun in *. cbn [fst snd] in *.
    destruct (unplug_each_count norm_mac env instance network_info
                (get_cnas env hc) (hc ++ [get_cnas_call])) as [_ [_ Heq]].
    destruct (snd (UnplugVifs.unplug_each norm_mac env instance network_info
                     (get_cnas env hc) (hc ++ [get_cnas_call])))
      as [[]|e]; [|discriminate Hret].
    exact (Heq eq_refl).
  - rewrite (unplug_run_locked norm_mac env instance network_info h reason
               Est) in Hret.
    discriminate Hret.
Qed.

Lemma unplug_accounts_for_every_interface_witness :
  (List.length
     (deletions
        (trace_of (UnplugVifs.execute norm_mac_lower (neutron_env [cna_AABB])
                     inst1 [vif_aabb; vif_ccdd; vif_aabb_again]) []))
   + warnings
       (trace_of (UnplugVifs.execute norm_mac_lower (neutron_env [cna_AABB])
                    inst1 [vif_aabb; vif_ccdd; vif_aabb_again]) []))%nat
  = 3%nat.
Proof.
  exact (unplug_accounts_for_every_interface norm_mac_lower
           (neutron_env [cna_AABB]) inst1
           [vif_aabb; vif_ccdd; vif_aabb_again] [] [cna_AABB] eq_refl).
Defined.

(** ** Plugging: creations and waits *)


Lemma trim_vifs_all_present (norm_mac : string -> string) (vifs : list VIF)
    (cnas : list CNA) :
  (forall vif, In vif vifs ->
               exists c, In c cnas /\ norm_mac (mac c) = address vif) ->
  PlugVifs.trim_vifs norm_mac vifs cnas = [].
Proof.
  induction vifs as [|vif rest IH]; intros Hall; [reflexivity|].
  simpl. destruct (PlugVifs.has_cna norm_mac vif cnas) eqn:Ehas.
  - apply IH. intros v Hv. apply Hall. right. exact Hv.
  - destruct (Hall vif (or_introl eq_refl)) as [c [Hc Hm]].
    exfalso. exact (proj1 (has_cna_false norm_mac vif cnas) Ehas c Hc Hm).
Qed.

Section PlugFailures.
Variable norm_mac : string -> string.
Variable env : Env.
Variable instance : Instance.
Variable network_info : list VIF.
Variable h : Trace.
Variable cnas : list CNA.
Hypothesis Hcnas :
  get_cnas env (h ++ [PlugVifs.plugging_info instance]) = cnas.

Local Abbreviation crt_vifs :=
  (PlugVifs.trim_vifs norm_mac network_info cnas).
Local Abbreviation events := (PlugVifs._get_vif_events env network_info).
Local Abbreviation prologue := (plug_prologue env instance network_info).

(** A run with something to create on a modifiable machine, in terms of the
    creation loop and of the wait. *)
Lemma plug_run_unfold :
  crt_vifs <> [] ->
  fst (can_modify_io env ((h ++ [PlugVifs.plugging_info instance])
                          ++ [get_cnas_call])) = true ->
  PlugVifs.execute norm_mac env instance network_info h
  = match PlugVifs.create_each env instance crt_vifs (h ++ prologue) with
    | (tc, Return _) =>
        match wait_events env (PlugVifs._vif_callback_failed env instance)
                          events ((h ++ prologue) ++ tc) with
        | (tw, Return _) => (prologue ++ tc ++ tw, Return cnas)
        | (tw, Raise e) =>
            if is_Timeout e
            then (prologue ++ tc ++ tw ++ [PlugVifs.timeout_error instance],
                  Raise (VirtualInterfaceCreateException create_msg_fmt))
            else (prologue ++ tc ++ tw, Raise e)
        end
    | (tc, Raise e) =>
        if is_Timeout e
        then (prologue ++ tc ++ [PlugVifs.timeout_error instance],
              Raise (VirtualInterfaceCreateException create_msg_fmt))
        else (prologue ++ tc, Raise e)
    end.
Proof.
  intros Hne Hmod. unfold PlugVifs.execute.
  rewrite bind_emit, bind_run. unfold vm_get_cnas at 1 2 3 4. simpl.
  rewrite Hcnas.
  destruct (List.length crt_vifs =? 0)%nat eqn:El.
  { apply length_eqb_nil in El. contradiction. }
  rewrite bind_run. unfold lpar_can_modify_io at 1 2 3 4. simpl.
  destruct (can_modify_io env _) as [modifiable reason].
  simpl in Hmod. subst modifiable. simpl.
  rewrite bind_run. unfold try_except, wait_for_instance_event.
  rewrite bind_emit. rewrite bind_run.
  unfold plug_prologue.
  replace (h ++ [PlugVifs.plugging_info instance; get_cnas_call;
                 can_modify_io_call;
                 wait_for_instance_event_call events
                   (vif_plugging_timeout env)])
    with ((((h ++ [PlugVifs.plugging_info instance]) ++ [get_cnas_call])
           ++ [can_modify_io_call])
          ++ [wait_for_instance_event_call events
                (vif_plugging_timeout env)])
    by (rewrite <- !app_assoc; reflexivity).
  destruct (PlugVifs.create_each env instance crt_vifs _)
    as [tc [[]|e]]; cbn [fst snd].
  - destruct (wait_events env _ events _) as [tw [[]|e]]; cbn [fst snd].
    + simpl. rewrite app_nil_r. reflexivity.
    + destruct (is_Timeout e); simpl; [|reflexivity].
      rewrite <- !app_assoc. reflexivity.
  - destruct (is_Timeout e); reflexivity.
Qed.
End PlugFailures.

Section CreateFailures.
Variable env : Env.
Variable instance : Instance.
Variable crt_fails : VIF -> option Exn.
Hypothesis Hcrt : forall t vif, crt_vif env t vif = crt_fails vif.

(** The creation loop stops at the first VIF whose creation fails. *)
Lemma create_each_fail (pre post : list VIF) (vif : VIF) (e : Exn)
    (h : Trace) :
  (forall v, In v pre -> crt_fails v = None) ->
  crt_fails vif = Some e ->
  PlugVifs.create_each env instance (pre ++ vif :: post) h
  = (create_trace instance (pre ++ [vif]), Raise e).
Proof.
  revert h. induction pre as [|v rest IH]; intros h Hpre Hfail.
  - simpl. rewrite bind_emit, bind_run. unfold vm_crt_vif at 1 2 3. simpl.
    rewrite Hcrt, Hfail. reflexivity.
  - simpl. rewrite bind_emit, bind_run. unfold vm_crt_vif at 1 2 3. simpl.
    rewrite Hcrt, (Hpre v (or_introl eq_refl)). simpl.
    rewrite IH; [reflexivity | | exact Hfail].
    intros v' Hv'. apply Hpre. right. exact Hv'.
Qed.
End CreateFailures.

(** Under the fatal policy the wait ends at the first event that arrives
    with a failure: the callback logs it and raises. *)
Lemma wait_events_failed (env : Env) (instance : Instance)
    (events : list EventName) (ev : EventName) (h : Trace) :
  vif_plugging_is_fatal env = true ->
  In ev events ->
  (forall t, event_status env t ev = Failed) ->
  (forall t ev', ev' <> ev -> event_status env t ev' = Completed) ->
  wait_events env (PlugVifs._vif_callback_failed env instance) events h
  = ([callback_error instance ev],
     Raise (VirtualInterfaceCreateException create_msg_fmt)).
Proof.
  intros Hfatal Hin Hfailed Hothers.
  induction events as [|ev' rest IH]; [contradiction|].
  simpl. destruct (EventName_eq_dec ev' ev) as [-> | Hneq].
  - rewrite Hfailed, bind_run.
    unfold PlugVifs._vif_callback_failed. rewrite bind_emit, Hfatal.
    reflexivity.
  - rewrite (Hothers h ev' Hneq). apply IH.
    destruct Hin as [Heq | Hin]; [contradiction | exact Hin].
Qed.


(** X6: a creation that fails ends the plug operation: the VIFs after the
    failing one are not created and nothing is awaited.  The exception of
    [vm.crt_vif] leaves the operation unchanged, except an eventlet
    [Timeout], which is logged and replaced by
    [VirtualInterfaceCreateException]. *)
Theorem plug_creation_failure_propagates :
  forall (norm_mac : string -> string) (env : Env) (instance : Instance)
         (network_info : list VIF) (cnas : list CNA) (h : Trace)
         (crt_fails : VIF -> option Exn) (pre post : list VIF) (vif : VIF)
         (e : Exn),
    (forall t, get_cnas env t = cnas) ->
    (forall t, fst (can_modify_io env t) = true) ->
    (forall t v, crt_vif env t v = crt_fails v) ->
    PlugVifs.trim_vifs norm_mac network_info cnas = pre ++ vif :: post ->
    (forall v, In v pre -> crt_fails v = None) ->
    crt_fails vif = Some e ->
    PlugVifs.execute norm_mac env instance network_info h
    = (plug_prologue env instance network_info
       ++ create_trace instance (pre ++ [vif])
       ++ (if is_Timeout e then [PlugVifs.timeout_error instance] else []),
       Raise (if is_Timeout e
              then VirtualInterfaceCreateException create_msg_fmt else e)).
Proof.
  intros norm_mac env instance network_info cnas h crt_fails pre post vif e
         Hcnas Hmod Hcrt Htrim Hpre Hfail.
  rewrite (plug_run_unfold norm_mac env instance network_info h cnas
             (Hcnas _)); [| rewrite Htrim; destruct pre; discriminate
                          | apply Hmod].
  rewrite Htrim.
  rewrite (create_each_fail env instance crt_fails Hcrt pre post vif e _
             Hpre Hfail).
  destruct (is_Timeout e); [reflexivity|].
  rewrite app_nil_r. reflexivity.
Qed.

Lemma plug_creation_failure_propagates_witness :
  PlugVifs.execute norm_mac_lower
    (faulty_env [] (fun _ => None) ccdd_crt_fails (fun _ => Completed))
    inst1 [vif_aabb; vif_ccdd; vif_no_active] []
  = (plug_prologue
       (faulty_env [] (fun _ => None) ccdd_crt_fails (fun _ => Completed))
       inst1 [vif_aabb; vif_ccdd; vif_no_active]
     ++ create_trace inst1 [vif_aabb; vif_ccdd],
     Raise (OtherException "HTTP 500")).
Proof.
  refine (eq_trans
            (plug_creation_failure_propagates norm_mac_lower
               (faulty_env [] (fun _ => None) ccdd_crt_fails
                           (fun _ => Completed))
               inst1 [vif_aabb; vif_ccdd; vif_no_active] [] []
               ccdd_crt_fails [vif_aabb] [vif_no_active] vif_ccdd
               (OtherException "HTTP 500") _ _ _ _ _ _)
            eq_refl).
  - intros t. reflexivity.
  - intros t. reflexivity.
  - intros t v. reflexivity.
  - reflexivity.
  - intros v [<- | []]. reflexivity.
  - reflexivity.
Defined.

(** X7: when neutron is not used, or the fatal policy is off, or the timeout
    is zero, the plug operation waits for nothing.  On a modifiable machine
    where no creation fails it registers an empty wait set, creates the
    trimmed list and returns the adapters [vm.get_cnas] answered at its
    start, whatever the events do and whatever the hypervisor would answer
    after the creations; no event failure is ever logged. *)
Theorem plug_without_gate_never_waits :
  forall (norm_mac : string -> string) (env : Env) (instance : Instance)
         (network_info : list VIF) (cnas : list CNA) (h : Trace),
    get_cnas env (h ++ [PlugVifs.plugging_info instance]) = cnas ->
    fst (can_modify_io env ((h ++ [PlugVifs.plugging_info instance])
                            ++ [get_cnas_call])) = true ->
    (forall t vif, crt_vif env t vif = None) ->
    PlugVifs.trim_vifs norm_mac network_info cnas <> [] ->
    events_required env = false ->
    PlugVifs.execute norm_mac env instance network_info h
    = ([PlugVifs.plugging_info instance; get_cnas_call; can_modify_io_call;
        wait_for_instance_event_call [] (vif_plugging_timeout env)]
       ++ create_trace instance
            (PlugVifs.trim_vifs norm_mac network_info cnas),
       Return cnas).
Proof.
  intros norm_mac env instance network_info cnas h Hcnas Hmod Hok Hne Hgate.
  assert (Hnone : PlugVifs._get_vif_events env network_info = [])
    by (rewrite _get_vif_events_gate, Hgate; reflexivity).
  rewrite (plug_run_success norm_mac env instance network_info h cnas
             Hcnas Hne Hmod Hok).
  - unfold plug_prologue. rewrite Hnone. reflexivity.
  - rewrite Hnone. intros t ev [].
Qed.

(** The fatal policy is off, no event ever arrives, and the hypervisor's
    list follows the creation: the operation returns the list of before. *)
Lemma plug_without_gate_never_waits_witness :
  outcome_of (PlugVifs.execute norm_mac_lower
                (live_env false eth0 [cna_AABB])
                inst1 [vif_aabb; vif_ccdd]) []
  = Return [cna_AABB]
  /\ get_cnas (live_env false eth0 [cna_AABB])
       (trace_of (PlugVifs.execute norm_mac_lower
                    (live_env false eth0 [cna_AABB])
                    inst1 [vif_aabb; vif_ccdd]) [])
     = [cna_AABB; adapter_of eth0 vif_ccdd].
Proof.
  split.
  - refine (f_equal snd
              (plug_without_gate_never_waits norm_mac_lower
                 (live_env false eth0 [cna_AABB])
                 inst1 [vif_aabb; vif_ccdd] [cna_AABB] [] _ _ _ _ _)).
    + reflexivity.
    + reflexivity.
    + intros t vif. reflexivity.
    + discriminate.
    + reflexivity.
  - reflexivity.
Defined.

(** X8: an event that arrives with a failure ends the plug operation with
    [VirtualInterfaceCreateException], raised by the callback after it has
    logged the event; the creations have all been made by then and the
    timeout is not reported. *)
Theorem plug_failed_event_is_fatal :
  forall (norm_mac : string -> string) (env : Env) (instance : Instance)
         (network_info : list VIF) (cnas : list CNA) (h : Trace)
         (ev : EventName),
    (forall t, get_cnas env t = cnas) ->
    (forall t, fst (can_modify_io env t) = true) ->
    (forall t vif, crt_vif env t vif = None) ->
    PlugVifs.trim_vifs norm_mac network_info cnas <> [] ->
    In ev (PlugVifs._get_vif_events env network_info) ->
    (forall t, event_status env t ev = Failed) ->
    (forall t ev', ev' <> ev -> event_status env t ev' = Completed) ->
    PlugVifs.execute norm_mac env instance network_info h
    = (plug_prologue env instance network_info
       ++ create_trace instance
            (PlugVifs.trim_vifs norm_mac network_info cnas)
       ++ [callback_error instance ev],
       Raise (VirtualInterfaceCreateException create_msg_fmt)).
Proof.
  intros norm_mac env instance network_info cnas h ev Hcnas Hmod Hok Hne
         Hin Hfailed Hothers.
  assert (Hfatal : vif_plugging_is_fatal env = true).
  { rewrite _get_vif_events_gate in Hin. unfold events_required in Hin.
    destruct (vif_plugging_is_fatal env); [reflexivity|].
    rewrite andb_false_r in Hin. destruct Hin. }
  rewrite (plug_run_unfold norm_mac env instance network_info h cnas
             (Hcnas _) Hne (Hmod _)).
  rewrite create_each_ok by exact Hok.
  rewrite (wait_events_failed env instance _ ev _ Hfatal Hin Hfailed
             Hothers).
  reflexivity.
Qed.

Lemma plug_failed_event_is_fatal_witness :
  PlugVifs.execute norm_mac_lower
    (faulty_env [] (fun _ => None) (fun _ => None) port2_fails)
    inst1 [vif_aabb; vif_ccdd] []
  = (plug_prologue
       (faulty_env [] (fun _ => None) (fun _ => None) port2_fails)
       inst1 [vif_aabb; vif_ccdd]
     ++ create_trace inst1 [vif_aabb; vif_ccdd]
     ++ [callback_error inst1 (vif_plugged vif_ccdd)],
     Raise (VirtualInterfaceCreateException create_msg_fmt)).
Proof.
  refine (plug_failed_event_is_fatal norm_mac_lower
            (faulty_env [] (fun _ => None) (fun _ => None) port2_fails)
            inst1 [vif_aabb; vif_ccdd] [] [] (vif_plugged vif_ccdd)
            _ _ _ _ _ _ _).
  - intros t. reflexivity.
  - intros t. reflexivity.
  - intros t vif. reflexivity.
  - discriminate.
  - simpl. right. left. reflexivity.
  - intros t. reflexivity.
  - intros t [ty tag] Hneq. unfold faulty_env, port2_fails. simpl.
    destruct (ty =? "network-vif-plugged") eqn:Ety; [|reflexivity].
    destruct (tag =? "port-2") eqn:Etag; [|reflexivity].
    apply String.eqb_eq in Ety, Etag. subst ty tag.
    exfalso. apply Hneq. reflexivity.
Defined.

(** X9: the plug operation is idempotent on a settled machine: when every
    desired interface has an adapter whose normalized address is its
    address, the operation logs, fetches the adapters and returns the empty
    list, whatever the machine state and the configuration are. *)
Theorem plug_settled_is_noop :
  forall (norm_mac : string -> string) (env : Env) (instance : Instance)
         (network_info : list VIF) (cnas : list CNA) (h : Trace),
    (forall t, get_cnas env t = cnas) ->
    (forall vif, In vif network_info ->
                 exists c, In c cnas /\ norm_mac (mac c) = address vif) ->
    PlugVifs.execute norm_mac env instance network_info h
    = ([PlugVifs.plugging_info instance; get_cnas_call], Return []).
Proof.
  intros norm_mac env instance network_info cnas h Hcnas Hall.
  apply (plug_run_empty norm_mac env instance network_info h cnas (Hcnas _)).
  apply trim_vifs_all_present. exact Hall.
Qed.

Lemma plug_settled_is_noop_witness :
  PlugVifs.execute norm_mac_lower (locked_env [cna_CCDD; cna_AABB] "busy")
    inst1 [vif_aabb; vif_ccdd; vif_aabb_again] []
  = ([PlugVifs.plugging_info inst1; get_cnas_call], Return []).
Proof.
  refine (plug_settled_is_noop norm_mac_lower
            (locked_env [cna_CCDD; cna_AABB] "busy") inst1
            [vif_aabb; vif_ccdd; vif_aabb_again] [cna_CCDD; cna_AABB] []
            _ _).
  - intros t. reflexivity.
  - intros vif [<- | [<- | [<- | []]]].
    + exists cna_AABB. split; [right; left; reflexivity | reflexivity].
    + exists cna_CCDD. split; [left; reflexivity | reflexivity].
    + exists cna_AABB. split; [right; left; reflexivity | reflexivity].
Defined.



(** ** The plug flow *)

Lemma mgmt_creations_app (t1 t2 : Trace) :
  mgmt_creations (t1 ++ t2) = (mgmt_creations t1 + mgmt_creations t2)%nat.
Proof. unfold mgmt_creations. rewrite filter_app. apply length_app. Qed.

Lemma mgmt_creations_create_trace (instance : Instance) (vifs : list VIF) :
  mgmt_creations (create_trace instance vifs) = 0%nat.
Proof. induction vifs as [|vif rest IH]; [reflexivity | exact IH]. Qed.

(** X11: when the plug task has nothing to create it provides the empty
    list, not the adapters it fetched; the management task that follows then
    finds no adapter on the management switch and creates a management VIF,
    also when the machine already has one. *)
Theorem plug_flow_settled_creates_mgmt :
  forall (norm_mac : string -> string) (env : Env) (instance : Instance)
         (network_info : list VIF) (cnas : list CNA) (sw : VSwitch)
         (h : Trace),
    (forall t, get_cnas env t = cnas) ->
    (forall t, get_secure_rmc_vswitch env t = Some sw) ->
    PlugVifs.trim_vifs norm_mac network_info cnas = [] ->
    trace_of (plug_flow norm_mac env instance network_info) h
    = [PlugVifs.plugging_info instance; get_cnas_call;
       PlugMgmtVif.plugging_info instance; get_secure_rmc_vswitch_call;
       crt_secure_rmc_vif_call].
Proof.
  intros norm_mac env instance network_info cnas sw h Hcnas Hsw Hempty.
  unfold trace_of, plug_flow. rewrite bind_run.
  rewrite (plug_run_empty norm_mac env instance network_info h cnas
             (Hcnas _) Hempty).
  cbn [fst snd]. rewrite plug_mgmt_run, Hsw. reflexivity.
Qed.

Lemma plug_flow_settled_creates_mgmt_witness :
  mgmt_creations
    (trace_of (plug_flow norm_mac_lower (neutron_env [cna_AABB; mgmt_cna])
                 inst1 [vif_aabb]) [])
  = 1%nat.
Proof.
  refine (eq_trans
            (f_equal mgmt_creations
               (plug_flow_settled_creates_mgmt norm_mac_lower
                  (neutron_env [cna_AABB; mgmt_cna]) inst1 [vif_aabb]
                  [cna_AABB; mgmt_cna] mgmt_switch [] _ _ _))
            eq_refl).
  - intros t. reflexivity.
  - intros t. reflexivity.
  - reflexivity.
Defined.

(** X12: when the plug task has created something and returned, the
    management task receives the adapters [vm.get_cnas] answered before the
    creations, and decides on them alone: it creates no management VIF and
    returns none when one of these adapters is on the management switch, and
    it creates one when none of them is -- whatever adapters the hypervisor
    shows after the creations. *)
Theorem plug_flow_mgmt_decides_on_prior_adapters :
  forall (norm_mac : string -> string) (env : Env) (instance : Instance)
         (network_info : list VIF) (cnas : list CNA) (sw : VSwitch)
         (h : Trace),
    get_cnas env (h ++ [PlugVifs.plugging_info instance]) = cnas ->
    fst (can_modify_io env ((h ++ [PlugVifs.plugging_info instance])
                            ++ [get_cnas_call])) = true ->
    (forall t vif, crt_vif env t vif = None) ->
    (forall t ev, In ev (PlugVifs._get_vif_events env network_info) ->
                  event_status env t ev = Completed) ->
    (forall t, get_secure_rmc_vswitch env t = Some sw) ->
    PlugVifs.trim_vifs norm_mac network_info cnas <> [] ->
    let flow := plug_flow norm_mac env instance network_info in
    creations (trace_of flow h)
    = PlugVifs.trim_vifs norm_mac network_info cnas
    /\ ((exists c, In c cnas /\ vswitch_uri c = href sw) ->
        outcome_of flow h = Return None
        /\ mgmt_creations (trace_of flow h) = 0%nat)
    /\ ((forall c, In c cnas -> vswitch_uri c <> href sw) ->
        mgmt_creations (trace_of flow h) = 1%nat).
Proof.
  intros norm_mac env instance network_info cnas sw h Hcnas Hmod Hok Hdone
         Hsw Hne flow.
  unfold flow, outcome_of, trace_of, plug_flow. rewrite bind_run.
  rewrite (plug_run_success norm_mac env instance network_info h cnas
             Hcnas Hne Hmod Hok Hdone).
  cbn [fst snd]. rewrite plug_mgmt_run, Hsw.
  destruct (PlugMgmtVif.on_vswitch sw cnas) eqn:Eon; cbn [fst snd].
  - rewrite !mgmt_creations_app, !creations_app.
    rewrite mgmt_creations_create_trace, creations_create_trace.
    split; [simpl; rewrite app_nil_r; reflexivity|]. split.
    + intros _. split; reflexivity.
    + intros Hnone. apply on_vswitch_exists in Eon.
      destruct Eon as [c [Hc Huri]]. exfalso. exact (Hnone c Hc Huri).
  - rewrite !mgmt_creations_app, !creations_app.
    rewrite mgmt_creations_create_trace, creations_create_trace.
    split; [simpl; rewrite app_nil_r; reflexivity|]. split.
    + intros Hex. apply on_vswitch_exists in Hex.
      rewrite Hex in Eon. discriminate Eon.
    + intros _. reflexivity.
Qed.

(** A machine with a management adapter keeps it as the only one.  On a
    hypervisor that shows the created adapter on the management switch, the
    flow creates a management VIF all the same: the list of before the
    creation has none. *)
Lemma plug_flow_mgmt_decides_on_prior_adapters_witness :
  outcome_of (plug_flow norm_mac_lower
                (live_env true eth0 [cna_AABB; mgmt_cna])
                inst1 [vif_aabb; vif_ccdd]) []
  = Return None
  /\ (mgmt_creations
        (trace_of (plug_flow norm_mac_lower
                     (live_env true (href mgmt_switch) [cna_AABB])
                     inst1 [vif_aabb; vif_ccdd]) [])
      = 1%nat
      /\ get_cnas (live_env true (href mgmt_switch) [cna_AABB])
           (trace_of (plug_flow norm_mac_lower
                        (live_env true (href mgmt_switch) [cna_AABB])
                        inst1 [vif_aabb; vif_ccdd]) [])
         = [cna_AABB; adapter_of (href mgmt_switch) vif_ccdd]).
Proof.
  split; [|split].
  - refine (proj1 (proj1 (proj2
              (plug_flow_mgmt_decides_on_prior_adapters norm_mac_lower
                 (live_env true eth0 [cna_AABB; mgmt_cna]) inst1
                 [vif_aabb; vif_ccdd] [cna_AABB; mgmt_cna] mgmt_switch []
                 _ _ _ _ _ _)) _)).
    + reflexivity.
    + reflexivity.
    + intros t vif. reflexivity.
    + intros t ev _. reflexivity.
    + intros t. reflexivity.
    + discriminate.
    + exists mgmt_cna. split; [right; left; reflexivity | reflexivity].
  - refine (proj2 (proj2
              (plug_flow_mgmt_decides_on_prior_adapters norm_mac_lower
                 (live_env true (href mgmt_switch) [cna_AABB]) inst1
                 [vif_aabb; vif_ccdd] [cna_AABB] mgmt_switch []
                 _ _ _ _ _ _)) _).
    + reflexivity.
    + reflexivity.
    + intros t vif. reflexivity.
    + intros t ev _. reflexivity.
    + intros t. reflexivity.
    + discriminate.
    + intros c [<- | []]. discriminate.
  - reflexivity.
Defined.

(** ** Order and reach of the calls *)

Lemma state_checks_app (t1 t2 : Trace) :
  state_checks (t1 ++ t2) = (state_checks t1 + state_checks t2)%nat.
Proof. unfold state_checks. rewrite filter_app. apply length_app. Qed.

Lemma waits_app (t1 t2 : Trace) :
  waits (t1 ++ t2) = (waits t1 + waits t2)%nat.
Proof. unfold waits. rewrite filter_app. apply length_app. Qed.

Lemma quiet_state_checks (t : Trace) : quiet t -> state_checks t = 0%nat.
Proof.
  induction 1 as [|ev t Hev _ IH]; [reflexivity|].
  destruct ev; try discriminate Hev. exact IH.
Qed.

Lemma quiet_waits (t : Trace) : quiet t -> waits t = 0%nat.
Proof.
  induction 1 as [|ev t Hev _ IH]; [reflexivity|].
  destruct ev; try discriminate Hev. exact IH.
Qed.

Lemma state_checks_create_trace (instance : Instance) (vifs : list VIF) :
  state_checks (create_trace instance vifs) = 0%nat.
Proof. induction vifs as [|vif rest IH]; [reflexivity | exact IH]. Qed.

Lemma waits_create_trace (instance : Instance) (vifs : list VIF) :
  waits (create_trace instance vifs) = 0%nat.
Proof. induction vifs as [|vif rest IH]; [reflexivity | exact IH]. Qed.

(** X13: a plug run that calls [vm.crt_vif] at all has first fetched the
    adapters, then asked the machine whether it can be modified and got
    yes, then registered the wait set: its trace starts with these calls,
    in this order, and holds them once. *)
Theorem plug_creates_only_after_check :
  forall (norm_mac : string -> string) (env : Env) (instance : Instance)
         (network_info : list VIF) (h : Trace),
    let t := trace_of (PlugVifs.execute norm_mac env instance network_info) h
    in
    creations t <> [] ->
    fst (can_modify_io env ((h ++ [PlugVifs.plugging_info instance])
                            ++ [get_cnas_call])) = true
    /\ state_checks t = 1%nat
    /\ waits t = 1%nat
    /\ exists rest,
         t = plug_prologue env instance network_info ++ rest
         /\ state_checks rest = 0%nat /\ waits rest = 0%nat.
Proof.
  intros norm_mac env instance network_info h t. unfold t, trace_of.
  set (cnas := get_cnas env (h ++ [PlugVifs.plugging_info instance])).
  destruct (PlugVifs.trim_vifs norm_mac network_info cnas) eqn:Ecrt.
  - rewrite (plug_run_empty norm_mac env instance network_info h cnas
               eq_refl Ecrt).
    intros Hcreated. exfalso. apply Hcreated. reflexivity.
  - assert (Hne : PlugVifs.trim_vifs norm_mac network_info cnas <> [])
      by (rewrite Ecrt; discriminate).
    destruct (can_modify_io env ((h ++ [PlugVifs.plugging_info instance])
                                 ++ [get_cnas_call]))
      as [[|] reason] eqn:Est.
    + destruct (plug_run_shape norm_mac env instance network_info h cnas
                  eq_refl Hne) as [n [tw [o [Hrun [Hq _]]]]];
        [rewrite Est; reflexivity|].
      rewrite Hrun. cbn [fst]. intros _.
      split; [reflexivity|].
      rewrite !state_checks_app, !waits_app.
      rewrite state_checks_create_trace, waits_create_trace.
      rewrite (quiet_state_checks _ Hq), (quiet_waits _ Hq).
      split; [reflexivity|]. split; [reflexivity|].
      eexists. split; [reflexivity|].
      rewrite !state_checks_app, !waits_app.
      rewrite state_checks_create_trace, waits_create_trace.
      rewrite (quiet_state_checks _ Hq), (quiet_waits _ Hq).
      split; reflexivity.
    + rewrite (plug_run_locked norm_mac env instance network_info h cnas
                 eq_refl reason Hne Est).
      intros Hcreated. exfalso. apply Hcreated. reflexivity.
Qed.

Lemma plug_creates_only_after_check_witness :
  state_checks
    (trace_of (PlugVifs.execute norm_mac_lower (silent_env [cna_AABB])
                 inst1 [vif_aabb; vif_ccdd]) [])
  = 1%nat.
Proof.
  refine (proj1 (proj2 (plug_creates_only_after_check norm_mac_lower
                          (silent_env [cna_AABB]) inst1
                          [vif_aabb; vif_ccdd] [] _))).
  discriminate.
Defined.

(** X14: the management task works on the list it is given only: whatever
    the collaborators answer, it neither fetches the adapters nor asks
    whether the machine can be modified, it creates and deletes no VIF of
    the desired list, and it calls the management creation at most once. *)
Theorem plug_mgmt_reach :
  forall (env : Env) (instance : Instance) (vm_cnas : list CNA) (h : Trace),
    let t := trace_of (PlugMgmtVif.execute env instance vm_cnas) h in
    fetches t = 0%nat
    /\ state_checks t = 0%nat
    /\ creations t = []
    /\ deletions t = []
    /\ (mgmt_creations t <= 1)%nat.
Proof.
  intros env instance vm_cnas h t. unfold t, trace_of.
  rewrite plug_mgmt_run.
  destruct (get_secure_rmc_vswitch env _) as [sw|].
  - destruct (PlugMgmtVif.on_vswitch sw vm_cnas); cbn [fst];
      repeat split; try reflexivity; unfold mgmt_creations; simpl; lia.
  - cbn [fst]. repeat split; try reflexivity; unfold mgmt_creations; simpl; lia.
Qed.
